(** * Flight route search: result interpretation and rendering

    A shallow embedding of the browser script of the flight-scheduling
    front end.  The page state (DOM flags, pane contents, the Leaflet route
    layer, the script's [currentResults] variable) is an explicit record;
    every event handler is a function on that record, split at its [await]
    points.  Two revisions of the script are embedded: the current one
    (with the schedule-conflict panel) at top level, and the earlier one in
    module [Legacy]. *)

From Stdlib Require Import ZArith String Ascii List.
From Stdlib Require QArith DecimalString.
From stdpp Require Import base option list strings gmap.

(** ** JavaScript numbers

    Costs and coordinates are JavaScript numbers.  Nothing below depends on
    how they add or print, so they are kept behind an interface; no law is
    assumed of it. *)

Class JsNumber (number : Type) := {
  num_of_Z : Z → number;                    (* integer literals *)
  num_add : number → number → number;       (* a + b *)
  num_mul : number → number → number;       (* a * b *)
  num_div : number → number → number;       (* a / b *)
  num_toFixed : nat → number → string;      (* a.toFixed(n) *)
  num_toString : number → string            (* `${a}` *)
}.

(** ** Data received from the back end *)

(** [new Date(s).getTime()]: epoch milliseconds, [None] for an invalid
    date (NaN). *)
Definition Date := option Z.

Record Leg (number : Type) := {
  flight_number : string;
  airline : string;
  aircraft : string;
  destination : string;
  departure_utc : Date;
  arrival_utc : Date;
  cost : number
}.
Arguments flight_number {number} _.
Arguments airline {number} _.
Arguments aircraft {number} _.
Arguments destination {number} _.
Arguments departure_utc {number} _.
Arguments arrival_utc {number} _.
Arguments cost {number} _.

(** One criterion's outcome; [path] is [None] when the property is absent. *)
Record RouteResult (number : Type) := {
  status : string;
  path : option (list (Leg number))
}.
Arguments status {number} _.
Arguments path {number} _.

(** A JSON object: keys in insertion order. *)
Definition JsObject (A : Type) := list (string * A).

Fixpoint getProp {A} (o : JsObject A) (k : string) : option A :=
  match o with
  | [] => None
  | (k', v) :: o' => if decide (k' = k) then Some v else getProp o' k
  end.

Definition ResultSet (number : Type) := JsObject (RouteResult number).

Record ConflictItem := { flight : string; reason : string }.

Record Validation := {
  conflicts_detected : bool;
  conflicted_flights : list ConflictItem
}.

Record Breakdown (number : Type) := {
  aircraft_conflicts : number;
  runway_conflicts : number;
  gate_conflicts : number;
  positioning_conflicts : number
}.
Arguments aircraft_conflicts {number} _.
Arguments runway_conflicts {number} _.
Arguments gate_conflicts {number} _.
Arguments positioning_conflicts {number} _.

Record Summary (number : Type) := {
  total_flights : number;
  successful : number;
  failed : number;
  conflict_breakdown : Breakdown number
}.
Arguments total_flights {number} _.
Arguments successful {number} _.
Arguments failed {number} _.
Arguments conflict_breakdown {number} _.

Record ConflictReport (number : Type) := {
  summary : Summary number;
  failed_flights : list string;
  conflicts : list string
}.
Arguments summary {number} _.
Arguments failed_flights {number} _.
Arguments conflicts {number} _.

(** Outcome of a [fetch]: a 2xx response with its parsed body, a response
    with another status, or a rejected promise. *)
Inductive Http (A : Type) :=
| HttpOk (body : A)
| HttpStatus (code : nat)
| HttpFailed (message : string).
Arguments HttpOk {A} _.
Arguments HttpStatus {A} _.
Arguments HttpFailed {A} _.

(** ** Lookup tables

    [airlineNames], [airportNames] and [airportCoordinates] are globals
    defined by another script of the page; they are taken as a parameter. *)

Definition Coord (number : Type) : Type := number * number.

Record Tables (number : Type) := {
  airlineNames : gmap string string;
  airportNames : gmap string string;
  airportCoordinates : gmap string (Coord number)
}.
Arguments airlineNames {number} _.
Arguments airportNames {number} _.
Arguments airportCoordinates {number} _.

(** [table[key] || fallback] on a table of strings: a missing entry and an
    empty name are both falsy. *)
Definition nameOr (table : gmap string string) (key fallback : string) : string :=
  match table !! key with
  | Some n => if decide (n = EmptyString) then fallback else n
  | None => fallback
  end.

(** ** What the page shows *)

(** The pieces a pane's [innerHTML] is concatenated from.  A duration is
    kept as the difference of the two dates in milliseconds ([None] for
    NaN); the script prints it as [Math.floor(h)]h
    [Math.round((h % 1) * 60)]m with h = ms / 3600000. *)
Inductive Fragment :=
| ErrorNotice
| NoRouteNotice
| AggregateLine (totalCost : string) (totalDuration : option Z) (stops : Z)
| ErrorLeg (airlineName airlineCode flightNumber : string)
| DetailLeg (airlineName airlineCode flightNumber legCost : string)
            (originName origin destName dest : string)
            (depTime arrTime : Date) (duration : option Z)
            (aircraftName : string)
(* the earlier revision's markup *)
| PlainNoRoute
| PlainTotals (totalCost : string) (totalDuration : option Z)
| PlainLeg (airlineName airlineCode flightNumber origin dest : string).

Definition Content := list Fragment.

Record Pane := { innerHTML : Content; pane_active : bool }.

Record TabButton := { data_tab : string; btn_active : bool }.

(** The [div.collision-warning] built by [showCollisionWarning]. *)
Record Banner := { banner_count : nat; banner_flights : list string }.

Inductive PointKind := Origin | Destination | Layover.

(** A marker's popup; the earlier revision shows no airport name. *)
Record Popup := {
  popup_kind : PointKind;
  popup_name : option string;
  popup_code : string
}.

Inductive Layer (number : Type) :=
| Marker (pos : Coord number) (popup : Popup)
| Polyline (pts : list (Coord number)).
Arguments Marker {number} _ _.
Arguments Polyline {number} _.

(** The map's view frame: as set on load, or fitted to the padded bounds of
    a polyline through the given points. *)
Inductive MapView (number : Type) :=
| InitialView
| FitBounds (pts : list (Coord number)).
Arguments InitialView {number}.
Arguments FitBounds {number} _.

(** The conflict-report panel's [innerHTML]. *)
Record ReportView := {
  stat_total : string;
  stat_successful : string;
  stat_failed : string;
  stat_rate : string;
  shown_breakdown : list string;
  failed_total : nat;
  badges : list string;
  more_indicator : option nat;
  conflict_items : list string
}.

Inductive Exn :=
| TypeError (what : string)
| HttpError (code : nat)
| ReportError
| Rejected (message : string).

Inductive CollisionHtml :=
| NoHtml
| ReportHtml (v : ReportView)
| ReportFailure (e : Exn).

Record RequestData := {
  start : string;
  end_ : string;
  preferred_airline : option string;
  avoid_airline : option string
}.

Inductive Request :=
| FindRoutes (req : RequestData)
| ValidatePath (flight_numbers : list string)
| CollisionReport.

Inductive Alert :=
| NoRoutesAlert (from to : string)
| FetchErrorAlert (e : Exn).

Inductive LogEntry (number : Type) :=
| LogSending (req : RequestData)
| LogReceived (results : ResultSet number)
| LogValidationError (e : Exn).
Arguments LogSending {number} _.
Arguments LogReceived {number} _.
Arguments LogValidationError {number} _.

(** What the script does to the outside: [alert], [console] and [fetch]
    calls. *)
Inductive Effect (number : Type) :=
| Alerted (a : Alert)
| Logged (e : LogEntry number)
| Fetched (r : Request).
Arguments Alerted {number} _.
Arguments Logged {number} _.
Arguments Fetched {number} _.

(** The values of the four form inputs. *)
Record Form := {
  start_airport : string;
  end_airport : string;
  preferred_airline_input : string;
  avoid_airline_input : string
}.

(** ** The page state

    A [_hidden] flag is [true] when the element carries the class
    [hidden].  [warnings] are the banners at the front of [#results-tabs],
    first child first.  [tabButtons] are the [.tab-btn] elements in document
    order and [tabPanes] the [.tab-pane] elements by id; the page's markup
    is not part of the script, so both are whatever the state holds.  The
    other elements of the page have an id too ([#results-tabs],
    [#collision-data], ...); what the script would do to them if a result
    key named one is outside this model (see [keys_are_panes]).  [effects]
    lists the calls made so far, the most recent first. *)
Record State (number : Type) := {
  routeLayer : list (Layer number);
  mapView : MapView number;
  form : Form;
  loadingSpinner_hidden : bool;
  resultsTabs_hidden : bool;
  warnings : list Banner;
  collisionPanel_hidden : bool;
  collisionLoading_hidden : bool;
  collisionData : CollisionHtml;
  tabButtons : list TabButton;
  tabPanes : gmap string Pane;
  currentResults : ResultSet number;
  effects : list (Effect number)
}.
Arguments routeLayer {number} _.
Arguments mapView {number} _.
Arguments form {number} _.
Arguments loadingSpinner_hidden {number} _.
Arguments resultsTabs_hidden {number} _.
Arguments warnings {number} _.
Arguments collisionPanel_hidden {number} _.
Arguments collisionLoading_hidden {number} _.
Arguments collisionData {number} _.
Arguments tabButtons {number} _.
Arguments tabPanes {number} _.
Arguments currentResults {number} _.
Arguments effects {number} _.

Section Setters.
Context {number : Type}.
Implicit Type s : State number.

Definition set_routeLayer (v : list (Layer number)) s : State number :=
  Build_State number v (mapView s) (form s) (loadingSpinner_hidden s)
    (resultsTabs_hidden s) (warnings s) (collisionPanel_hidden s)
    (collisionLoading_hidden s) (collisionData s) (tabButtons s) (tabPanes s)
    (currentResults s) (effects s).

Definition set_mapView (v : MapView number) s : State number :=
  Build_State number (routeLayer s) v (form s) (loadingSpinner_hidden s)
    (resultsTabs_hidden s) (warnings s) (collisionPanel_hidden s)
    (collisionLoading_hidden s) (collisionData s) (tabButtons s) (tabPanes s)
    (currentResults s) (effects s).

Definition set_form (v : Form) s : State number :=
  Build_State number (routeLayer s) (mapView s) v (loadingSpinner_hidden s)
    (resultsTabs_hidden s) (warnings s) (collisionPanel_hidden s)
    (collisionLoading_hidden s) (collisionData s) (tabButtons s) (tabPanes s)
    (currentResults s) (effects s).

Definition set_loadingSpinner_hidden (v : bool) s : State number :=
  Build_State number (routeLayer s) (mapView s) (form s) v
    (resultsTabs_hidden s) (warnings s) (collisionPanel_hidden s)
    (collisionLoading_hidden s) (collisionData s) (tabButtons s) (tabPanes s)
    (currentResults s) (effects s).

Definition set_resultsTabs_hidden (v : bool) s : State number :=
  Build_State number (routeLayer s) (mapView s) (form s)
    (loadingSpinner_hidden s) v (warnings s) (collisionPanel_hidden s)
    (collisionLoading_hidden s) (collisionData s) (tabButtons s) (tabPanes s)
    (currentResults s) (effects s).

Definition set_warnings (v : list Banner) s : State number :=
  Build_State number (routeLayer s) (mapView s) (form s)
    (loadingSpinner_hidden s) (resultsTabs_hidden s) v
    (collisionPanel_hidden s) (collisionLoading_hidden s) (collisionData s)
    (tabButtons s) (tabPanes s) (currentResults s) (effects s).

Definition set_collisionPanel_hidden (v : bool) s : State number :=
  Build_State number (routeLayer s) (mapView s) (form s)
    (loadingSpinner_hidden s) (resultsTabs_hidden s) (warnings s) v
    (collisionLoading_hidden s) (collisionData s) (tabButtons s) (tabPanes s)
    (currentResults s) (effects s).

Definition set_collisionLoading_hidden (v : bool) s : State number :=
  Build_State number (routeLayer s) (mapView s) (form s)
    (loadingSpinner_hidden s) (resultsTabs_hidden s) (warnings s)
    (collisionPanel_hidden s) v (collisionData s) (tabButtons s) (tabPanes s)
    (currentResults s) (effects s).

Definition set_collisionData (v : CollisionHtml) s : State number :=
  Build_State number (routeLayer s) (mapView s) (form s)
    (loadingSpinner_hidden s) (resultsTabs_hidden s) (warnings s)
    (collisionPanel_hidden s) (collisionLoading_hidden s) v (tabButtons s)
    (tabPanes s) (currentResults s) (effects s).

Definition set_tabButtons (v : list TabButton) s : State number :=
  Build_State number (routeLayer s) (mapView s) (form s)
    (loadingSpinner_hidden s) (resultsTabs_hidden s) (warnings s)
    (collisionPanel_hidden s) (collisionLoading_hidden s) (collisionData s) v
    (tabPanes s) (currentResults s) (effects s).

Definition set_tabPanes (v : gmap string Pane) s : State number :=
  Build_State number (routeLayer s) (mapView s) (form s)
    (loadingSpinner_hidden s) (resultsTabs_hidden s) (warnings s)
    (collisionPanel_hidden s) (collisionLoading_hidden s) (collisionData s)
    (tabButtons s) v (currentResults s) (effects s).

Definition set_currentResults (v : ResultSet number) s : State number :=
  Build_State number (routeLayer s) (mapView s) (form s)
    (loadingSpinner_hidden s) (resultsTabs_hidden s) (warnings s)
    (collisionPanel_hidden s) (collisionLoading_hidden s) (collisionData s)
    (tabButtons s) (tabPanes s) v (effects s).

Definition set_effects (v : list (Effect number)) s : State number :=
  Build_State number (routeLayer s) (mapView s) (form s)
    (loadingSpinner_hidden s) (resultsTabs_hidden s) (warnings s)
    (collisionPanel_hidden s) (collisionLoading_hidden s) (collisionData s)
    (tabButtons s) (tabPanes s) (currentResults s) v.

(** [alert(...)], [console.log/error(...)], [fetch(...)] *)
Definition alert (a : Alert) s : State number :=
  set_effects (Alerted a :: effects s) s.
Definition console_log (e : LogEntry number) s : State number :=
  set_effects (Logged e :: effects s) s.
Definition fetch (r : Request) s : State number :=
  set_effects (Fetched r :: effects s) s.
End Setters.

(** ** Helpers standing for JavaScript built-ins *)

(** [s.toUpperCase()], on the ASCII letters. *)
Definition upper_ascii (a : ascii) : ascii :=
  let n := nat_of_ascii a in
  if (97 <=? n)%nat && (n <=? 122)%nat then ascii_of_nat (n - 32) else a.

Fixpoint toUpperCase (s : string) : string :=
  match s with
  | EmptyString => EmptyString
  | String a s' => String (upper_ascii a) (toUpperCase s')
  end.

(** [value || null] on an input's value *)
Definition orNull (v : string) : option string :=
  if decide (v = EmptyString) then None else Some v.

(** [a - b] on two dates: NaN as soon as one of them is invalid. *)
Definition dateDiff (a b : Date) : option Z :=
  match a, b with
  | Some x, Some y => Some (x - y)%Z
  | _, _ => None
  end.

(** [d < 0] for d = ms / (1000 * 60 * 60): the division by a positive
    constant keeps the sign, and [NaN < 0] is false. *)
Definition negative (ms : option Z) : bool :=
  match ms with
  | Some z => (z <? 0)%Z
  | None => false
  end.

(** [set.add(x)] on a [Set], kept in insertion order *)
Definition setAdd (x : string) (set : list string) : list string :=
  if decide (x ∈ set) then set else set ++ [x].

(** ** The script *)

Section Script.
Context {number : Type} `{!JsNumber number}.
Variable tbl : Tables number.
Implicit Type s : State number.

(** *** Conflict-report panel *)

Definition displayCollisionData (data : ConflictReport number) s : State number :=
  let summary := summary data in
  let breakdown := conflict_breakdown summary in
  let n := length (failed_flights data) in
  let html := {|
    stat_total := num_toString (total_flights summary);
    stat_successful := num_toString (successful summary);
    stat_failed := num_toString (failed summary);
    stat_rate :=
      num_toFixed 1
        (num_mul (num_div (successful summary) (total_flights summary))
                 (num_of_Z 100));
    shown_breakdown :=
      [num_toString (aircraft_conflicts breakdown);
       num_toString (runway_conflicts breakdown);
       num_toString (gate_conflicts breakdown);
       num_toString (positioning_conflicts breakdown)];
    failed_total := n;
    badges := take 20 (failed_flights data);
    more_indicator := if (20 <? n)%nat then Some (n - 20)%nat else None;
    conflict_items := take 10 (conflicts data)
  |} in
  set_collisionData (ReportHtml html) s.

Definition loadCollisionData_begin s : State number :=
  let s := set_collisionLoading_hidden false s in
  let s := set_collisionData NoHtml s in
  fetch CollisionReport s.

Definition loadCollisionData_resume (resp : Http (ConflictReport number)) s
  : State number :=
  let s :=
    match resp with
    | HttpOk data => displayCollisionData data s
    | HttpStatus _ => set_collisionData (ReportFailure ReportError) s
    | HttpFailed msg => set_collisionData (ReportFailure (Rejected msg)) s
    end in
  set_collisionLoading_hidden true s.

Definition viewCollisions s : State number :=
  let s := set_resultsTabs_hidden true s in
  let s := set_collisionPanel_hidden false s in
  loadCollisionData_begin s.

Definition closeCollisions s : State number :=
  let s := set_collisionPanel_hidden true s in
  if (0 <? length (currentResults s))%nat
  then set_resultsTabs_hidden false s
  else s.

(** *** Map *)

(** [path[index - 1].destination]; the index is in range for every point
    of [drawMapRoute] and every leg of [displayAllResults]
    (see [prevDestination_in_range]). *)
Definition prevDestination (path : list (Leg number)) (index : nat) : string :=
  from_option destination EmptyString (path !! (index - 1)%nat).

Definition pointMarker (path : list (Leg number)) (startNode : string)
    (npoints : nat) (index : nat) (p : option (Coord number))
  : option (Layer number) :=
  match p with
  | None => None
  | Some c =>
      let airportCode :=
        if (index =? 0)%nat then startNode else prevDestination path index in
      let airportName := nameOr (airportNames tbl) airportCode airportCode in
      let kind :=
        if (index =? 0)%nat then Origin
        else if (index =? npoints - 1)%nat then Destination
        else Layover in
      Some (Marker c {| popup_kind := kind;
                        popup_name := Some airportName;
                        popup_code := airportCode |})
  end.

Definition routePoints (path : list (Leg number)) (startNode : string)
  : list (option (Coord number)) :=
  airportCoordinates tbl !! startNode
    :: ((λ leg, airportCoordinates tbl !! destination leg) <$> path).

Definition drawMapRoute (path : option (list (Leg number)))
    (startNode : string) s : State number :=
  let s := set_routeLayer [] s in
  match path, airportCoordinates tbl !! startNode with
  | Some path, Some _ =>
      let points := routePoints path startNode in
      let markers :=
        omap id (imap (pointMarker path startNode (length points)) points) in
      let line := omap id points in
      let s := set_routeLayer (markers ++ [Polyline line]) s in
      match line with
      | [] => s
      | _ :: _ => set_mapView (FitBounds line) s
      end
  | _, _ => s
  end.

(** *** Tabs *)

Definition tabClick (i : nat) s : State number :=
  match tabButtons s !! i with
  | None => s
  | Some button =>
      let off := (λ btn, {| data_tab := data_tab btn; btn_active := false |})
                   <$> tabButtons s in
      let s := set_tabButtons
                 (<[i := {| data_tab := data_tab button; btn_active := true |}]> off)
                 s in
      let tabId := data_tab button in
      let s := set_tabPanes
                 (map_imap (λ id pane,
                    Some {| innerHTML := innerHTML pane;
                            pane_active := bool_decide (id = tabId) |})
                    (tabPanes s)) s in
      let startNode := toUpperCase (start_airport (form s)) in
      drawMapRoute (getProp (currentResults s) tabId ≫= path) startNode s
  end.

(** *** Result panes *)

Definition totalCost (legs : list (Leg number)) : number :=
  fold_left (λ acc leg, num_add acc (cost leg)) legs (num_of_Z 0).

Definition renderLeg (legs : list (Leg number)) (startNode : string)
    (index : nat) (leg : Leg number) : Fragment :=
  let airlineName := nameOr (airlineNames tbl) (airline leg) "Unknown Airline" in
  let origin :=
    if (index =? 0)%nat then startNode else prevDestination legs index in
  let originName := nameOr (airportNames tbl) origin origin in
  let destName := nameOr (airportNames tbl) (destination leg) (destination leg) in
  let depTime := departure_utc leg in
  let arrTime := arrival_utc leg in
  let duration := dateDiff arrTime depTime in
  if negative duration
  then ErrorLeg airlineName (airline leg) (flight_number leg)
  else DetailLeg airlineName (airline leg) (flight_number leg)
                 (num_toString (cost leg))
                 originName origin destName (destination leg)
                 depTime arrTime duration (aircraft leg).

(** The [content] computed for one entry, or the exception thrown while
    computing it: a found result without a [path], or with an empty one,
    makes the script read a property of [undefined]. *)
Definition renderResult (startNode : string) (result : RouteResult number)
  : Exn + Content :=
  if decide (status result = "found"%string) then
    match path result with
    | None => inl (TypeError "result.path")
    | Some legs =>
        let total := totalCost legs in
        match head legs, last legs with
        | Some firstLeg, Some lastLeg =>
            let totalDuration :=
              dateDiff (arrival_utc lastLeg) (departure_utc firstLeg) in
            if negative totalDuration then inr [ErrorNotice]
            else inr (AggregateLine (num_toFixed 2 total) totalDuration
                                    (Z.of_nat (length legs) - 1)
                        :: imap (renderLeg legs startNode) legs)
        | _, _ => inl (TypeError "lastLeg")
        end
    end
  else inr [NoRouteNotice].

(** The loop over [Object.entries(results)]; it stops at the first
    exception, keeping the panes already written.
    [document.getElementById(type)] is looked up among the panes: a key that
    names a pane has its pane written, a key that names no element makes the
    assignment throw.  A key that names another element of the page is not
    modelled (the script would replace that element's content); the
    properties that could depend on it assume [keys_are_panes]. *)
Fixpoint displayPanes (entries : ResultSet number) (startNode : string) s
  : State number * option Exn :=
  match entries with
  | [] => (s, None)
  | (type, result) :: rest =>
      match renderResult startNode result with
      | inl e => (s, Some e)
      | inr content =>
          match tabPanes s !! type with
          | None => (s, Some (TypeError "pane"))
          | Some pane =>
              displayPanes rest startNode
                (set_tabPanes
                   (<[type := {| innerHTML := content;
                                 pane_active := pane_active pane |}]>
                      (tabPanes s)) s)
          end
      end
  end.

Definition displayAllResults (results : ResultSet number)
    (startNode : string) s : State number * option Exn :=
  match displayPanes results startNode s with
  | (s, Some e) => (s, Some e)
  | (s, None) =>
      match list_find (λ btn, data_tab btn = "cheapest"%string) (tabButtons s) with
      | None => (s, Some (TypeError "querySelector"))
      | Some (i, _) => (tabClick i s, None)
      end
  end.

(** *** Conflict validation *)

Definition showCollisionWarning (conflicts : list ConflictItem) s
  : State number :=
  set_warnings ({| banner_count := length conflicts;
                   banner_flights := flight <$> conflicts |} :: warnings s) s.

Definition allFlightNumbers (results : ResultSet number) : list string :=
  fold_left
    (λ set type,
       match getProp results type ≫= path with
       | Some legs =>
           fold_left (λ set leg, setAdd (flight_number leg) set) legs set
       | None => set
       end)
    ["cheapest"; "fastest"; "best"]%string [].

(** Up to the [await fetch]; the flag tells whether a request was sent. *)
Definition validateCurrentPath_begin (results : ResultSet number) s
  : State number * bool :=
  let flights := allFlightNumbers results in
  if decide (flights = []) then (s, false)
  else (fetch (ValidatePath flights) s, true).

Definition validateCurrentPath_resume (resp : Http Validation) s
  : State number :=
  match resp with
  | HttpOk validation =>
      if conflicts_detected validation
      then showCollisionWarning (conflicted_flights validation) s
      else s
  | HttpStatus _ => s
  | HttpFailed msg => console_log (LogValidationError (Rejected msg)) s
  end.

(** *** Search form *)

Definition submit_begin s : State number :=
  let s := set_loadingSpinner_hidden false s in
  let s := set_resultsTabs_hidden true s in
  let s := set_collisionPanel_hidden true s in
  let s := set_routeLayer [] s in
  let requestData := {|
    start := toUpperCase (start_airport (form s));
    end_ := toUpperCase (end_airport (form s));
    preferred_airline := orNull (preferred_airline_input (form s));
    avoid_airline := orNull (avoid_airline_input (form s))
  |} in
  let s := console_log (LogSending requestData) s in
  fetch (FindRoutes requestData) s.

Definition submit_catch (e : Exn) s : State number :=
  alert (FetchErrorAlert e) s.

Definition submit_finally s : State number :=
  set_loadingSpinner_hidden true s.

Definition hasAnyRoute (results : ResultSet number) : bool :=
  existsb (λ kv, bool_decide (status kv.2 = "found"%string)) results.

(** The handler from the answer of [/api/find-routes] on, up to its end
    or to the [await] inside [validateCurrentPath]. *)
Definition submit_resume (requestData : RequestData)
    (resp : Http (ResultSet number)) s : State number :=
  match resp with
  | HttpStatus code => submit_finally (submit_catch (HttpError code) s)
  | HttpFailed msg => submit_finally (submit_catch (Rejected msg) s)
  | HttpOk results =>
      let s := set_currentResults results s in
      let s := console_log (LogReceived results) s in
      if negb (hasAnyRoute results) then
        submit_finally
          (alert (NoRoutesAlert (start requestData) (end_ requestData)) s)
      else
        match displayAllResults results (start requestData) s with
        | (s, Some e) => submit_finally (submit_catch e s)
        | (s, None) =>
            let s := set_resultsTabs_hidden false s in
            match validateCurrentPath_begin results s with
            | (s, true) => s
            | (s, false) => submit_finally s
            end
        end
  end.

(** The rest of the handler, once [/api/validate-path] has answered. *)
Definition validation_resume (resp : Http Validation) s : State number :=
  submit_finally (validateCurrentPath_resume resp s).

(** *** Events

    A response event resumes the handler that sent the request.  [gen]
    names the search a response belongs to (the first search is 1); the
    script keeps no such number and the handlers never read it. *)
Inductive Event :=
| FormInput (f : Form)
| Submit
| RoutesResponse (gen : nat) (requestData : RequestData)
                 (resp : Http (ResultSet number))
| ValidationResponse (gen : nat) (resp : Http Validation)
| TabClick (i : nat)
| ViewCollisions
| CollisionReportResponse (resp : Http (ConflictReport number))
| CloseCollisions.

Definition step (ev : Event) s : State number :=
  match ev with
  | FormInput f => set_form f s
  | Submit => submit_begin s
  | RoutesResponse _ requestData resp => submit_resume requestData resp s
  | ValidationResponse _ resp => validation_resume resp s
  | TabClick i => tabClick i s
  | ViewCollisions => viewCollisions s
  | CollisionReportResponse resp => loadCollisionData_resume resp s
  | CloseCollisions => closeCollisions s
  end.

Definition run (evs : list Event) s : State number :=
  fold_left (λ s ev, step ev s) evs s.

Definition is_search (e : Effect number) : bool :=
  match e with
  | Fetched (FindRoutes _) => true
  | _ => false
  end.

(** The number of searches submitted so far: the generation of the search
    on display or in flight. *)
Definition generation s : nat :=
  length (filter (λ e, is_search e = true) (effects s)).
End Script.

(** ** The earlier revision of the script

    No conflict panel, no validation, no check of the dates, no check that
    some route was found; same state, of which it leaves the conflict
    fields alone. *)
Module Legacy.
Section Script.
Context {number : Type} `{!JsNumber number}.
Variable tbl : Tables number.
Implicit Type s : State number.

Definition pointMarker (path : list (Leg number)) (startNode : string)
    (npoints : nat) (index : nat) (p : option (Coord number))
  : option (Layer number) :=
  match p with
  | None => None
  | Some c =>
      let airportCode :=
        if (index =? 0)%nat then startNode else prevDestination path index in
      let kind :=
        if (index =? 0)%nat then Origin
        else if (index =? npoints - 1)%nat then Destination
        else Layover in
      Some (Marker c {| popup_kind := kind;
                        popup_name := None;
                        popup_code := airportCode |})
  end.

Definition drawMapRoute (path : option (list (Leg number)))
    (startNode : string) s : State number :=
  let s := set_routeLayer [] s in
  match path, airportCoordinates tbl !! startNode with
  | Some path, Some _ =>
      let points := routePoints tbl path startNode in
      let markers :=
        omap id (imap (pointMarker path startNode (length points)) points) in
      let line := omap id points in
      let s := set_routeLayer (markers ++ [Polyline line]) s in
      match line with
      | [] => s
      | _ :: _ => set_mapView (FitBounds line) s
      end
  | _, _ => s
  end.

Definition tabClick (i : nat) s : State number :=
  match tabButtons s !! i with
  | None => s
  | Some button =>
      let off := (λ btn, {| data_tab := data_tab btn; btn_active := false |})
                   <$> tabButtons s in
      let s := set_tabButtons
                 (<[i := {| data_tab := data_tab button; btn_active := true |}]> off)
                 s in
      let tabId := data_tab button in
      let s := set_tabPanes
                 (map_imap (λ id pane,
                    Some {| innerHTML := innerHTML pane;
                            pane_active := bool_decide (id = tabId) |})
                    (tabPanes s)) s in
      let startNode := toUpperCase (start_airport (form s)) in
      drawMapRoute (getProp (currentResults s) tabId ≫= path) startNode s
  end.

Definition renderLeg (legs : list (Leg number)) (startNode : string)
    (index : nat) (leg : Leg number) : Fragment :=
  let airlineName := nameOr (airlineNames tbl) (airline leg) "Unknown Airline" in
  let origin :=
    if (index =? 0)%nat then startNode else prevDestination legs index in
  PlainLeg airlineName (airline leg) (flight_number leg) origin (destination leg).

Definition renderResult (startNode : string) (result : RouteResult number)
  : Exn + Content :=
  if decide (status result = "found"%string) then
    match path result with
    | None => inl (TypeError "result.path")
    | Some legs =>
        let total := totalCost legs in
        match head legs, last legs with
        | Some firstLeg, Some lastLeg =>
            let totalDuration :=
              dateDiff (arrival_utc lastLeg) (departure_utc firstLeg) in
            inr (PlainTotals (num_toFixed 2 total) totalDuration
                   :: imap (renderLeg legs startNode) legs)
        | _, _ => inl (TypeError "lastLeg")
        end
    end
  else inr [PlainNoRoute].

Fixpoint displayPanes (entries : ResultSet number) (startNode : string) s
  : State number * option Exn :=
  match entries with
  | [] => (s, None)
  | (type, result) :: rest =>
      match renderResult startNode result with
      | inl e => (s, Some e)
      | inr content =>
          match tabPanes s !! type with
          | None => (s, Some (TypeError "pane"))
          | Some pane =>
              displayPanes rest startNode
                (set_tabPanes
                   (<[type := {| innerHTML := content;
                                 pane_active := pane_active pane |}]>
                      (tabPanes s)) s)
          end
      end
  end.

Definition displayAllResults (results : ResultSet number)
    (startNode : string) s : State number * option Exn :=
  match displayPanes results startNode s with
  | (s, Some e) => (s, Some e)
  | (s, None) =>
      match list_find (λ btn, data_tab btn = "cheapest"%string) (tabButtons s) with
      | None => (s, Some (TypeError "querySelector"))
      | Some (i, _) => (tabClick i s, None)
      end
  end.

Definition submit_begin s : State number :=
  let s := set_loadingSpinner_hidden false s in
  let s := set_resultsTabs_hidden true s in
  let s := set_routeLayer [] s in
  let requestData := {|
    start := toUpperCase (start_airport (form s));
    end_ := toUpperCase (end_airport (form s));
    preferred_airline := orNull (preferred_airline_input (form s));
    avoid_airline := orNull (avoid_airline_input (form s))
  |} in
  fetch (FindRoutes requestData) s.

Definition submit_resume (requestData : RequestData)
    (resp : Http (ResultSet number)) s : State number :=
  match resp with
  | HttpStatus code => submit_finally (submit_catch (HttpError code) s)
  | HttpFailed msg => submit_finally (submit_catch (Rejected msg) s)
  | HttpOk results =>
      let s := set_currentResults results s in
      match displayAllResults results (start requestData) s with
      | (s, Some e) => submit_finally (submit_catch e s)
      | (s, None) => submit_finally (set_resultsTabs_hidden false s)
      end
  end.
End Script.
End Legacy.

(** ** Sample data

    An example number type, for the sample data only: exact rationals,
    printed in decimal (as an integer, or else rounded to two decimals).
    The general theorems do not depend on it. *)
Module Sample.
Import QArith_base.

Definition digits (n : Z) : string :=
  DecimalString.NilZero.string_of_uint (N.to_uint (Z.to_N n)).

Fixpoint pad (width : nat) (s : string) : string :=
  if (String.length s <? width)%nat
  then match width with
       | O => s
       | S w => pad w (String "0" s)
       end
  else s.

(** [q.toFixed(n)]: the nearest multiple of 10^-n, the larger one on a tie *)
Definition toFixed (n : nat) (q : Q) : string :=
  let scale := (10 ^ Z.of_nat n)%Z in
  let scaled :=
    ((2 * Qnum q * scale + Zpos (Qden q)) / (2 * Zpos (Qden q)))%Z in
  let a := Z.abs scaled in
  let body :=
    match n with
    | O => digits a
    | _ => digits (a / scale) +:+ "." +:+ pad n (digits (a mod scale))
    end in
  if (scaled <? 0)%Z then "-" +:+ body else body.

#[global] Instance Q_number : JsNumber Q := {|
  num_of_Z := inject_Z;
  num_add := Qplus;
  num_mul := Qmult;
  num_div := Qdiv;
  num_toFixed := toFixed;
  num_toString q :=
    if (Qnum q mod Zpos (Qden q) =? 0)%Z then toFixed 0 q else toFixed 2 q
|}.

Definition coord (lat lng : Z) : Coord Q := (inject_Z lat, inject_Z lng).

Definition tables : Tables Q := {|
  airlineNames := {[ "AA"%string := "American Airlines"%string ]};
  airportNames :=
    {[ "JFK"%string := "New York JFK"%string;
       "LAX"%string := "Los Angeles"%string ]};
  airportCoordinates :=
    {[ "JFK"%string := coord 40 (-73);
       "ORD"%string := coord 41 (-87);
       "LAX"%string := coord 33 (-118) ]}
|}.

Definition leg (fn dest : string) (dep arr : Z) (c : Z) : Leg Q := {|
  flight_number := fn; airline := "AA"; aircraft := "B738";
  destination := dest;
  departure_utc := Some dep; arrival_utc := Some arr;
  cost := inject_Z c
|}.

(** JFK → ORD → LAX; times in milliseconds *)
Definition via_ord : list (Leg Q) :=
  [leg "AA100" "ORD" 0 7200000 120; leg "AA200" "LAX" 10800000 25200000 180].

(** the same route with a middle leg that arrives before it leaves *)
Definition with_bad_leg : list (Leg Q) :=
  [leg "AA100" "ORD" 0 7200000 100;
   leg "AA150" "DEN" 9000000 8000000 50;
   leg "AA200" "LAX" 10800000 25200000 25].

(** one leg arriving 26 hours before it leaves *)
Definition backwards : list (Leg Q) :=
  [leg "AA300" "LAX" 93600000 0 200].

Definition direct : list (Leg Q) :=
  [leg "AA400" "LAX" 0 21600000 300].

Definition found (legs : list (Leg Q)) : RouteResult Q :=
  {| status := "found"; path := Some legs |}.

Definition not_found : RouteResult Q :=
  {| status := "not_found"; path := None |}.

Definition results_all : ResultSet Q :=
  [("cheapest"%string, found via_ord);
   ("fastest"%string, found direct);
   ("best"%string, found direct)].

Definition results_none : ResultSet Q :=
  [("cheapest"%string, not_found);
   ("fastest"%string, not_found);
   ("best"%string, not_found)].

Definition results_fastest_only : ResultSet Q :=
  [("fastest"%string, found direct)].

Definition results_backwards : ResultSet Q :=
  [("cheapest"%string, found backwards);
   ("fastest"%string, not_found);
   ("best"%string, not_found)].

Definition empty_pane : Pane := {| innerHTML := []; pane_active := false |}.

(** the page as loaded, with JFK → LAX typed into the form *)
Definition page : State Q := {|
  routeLayer := [];
  mapView := InitialView;
  form := {| start_airport := "jfk"; end_airport := "lax";
             preferred_airline_input := ""; avoid_airline_input := "" |};
  loadingSpinner_hidden := true;
  resultsTabs_hidden := true;
  warnings := [];
  collisionPanel_hidden := true;
  collisionLoading_hidden := true;
  collisionData := NoHtml;
  tabButtons :=
    [ {| data_tab := "cheapest"; btn_active := true |};
      {| data_tab := "fastest"; btn_active := false |};
      {| data_tab := "best"; btn_active := false |} ];
  tabPanes :=
    {[ "cheapest"%string := empty_pane;
       "fastest"%string := empty_pane;
       "best"%string := empty_pane ]};
  currentResults := [];
  effects := []
|}.

Definition request : RequestData :=
  {| start := "JFK"; end_ := "LAX";
     preferred_airline := None; avoid_airline := None |}.

Definition conflict_on_aa100 : Validation :=
  {| conflicts_detected := true;
     conflicted_flights := [ {| flight := "AA100"; reason := "gate" |} ] |}.

Definition no_conflict : Validation :=
  {| conflicts_detected := false; conflicted_flights := [] |}.

(** a first search answered, a second one submitted and answered, while
    the validation of the first is still on its way *)
Definition second_search_shown : State Q :=
  run tables
    [Submit; RoutesResponse 1 request (HttpOk results_all);
     Submit; RoutesResponse 2 request (HttpOk results_all)]
    page.

(** a search whose validation reported a conflict, followed by a second
    search that completes without any *)
Definition after_clean_second_search : State Q :=
  run tables
    [Submit; RoutesResponse 1 request (HttpOk results_all);
     ValidationResponse 1 (HttpOk conflict_on_aa100);
     Submit; RoutesResponse 2 request (HttpOk results_all);
     ValidationResponse 2 (HttpOk no_conflict)]
    page.

Definition results_bad_leg : ResultSet Q :=
  [("cheapest"%string, found with_bad_leg);
   ("fastest"%string, not_found);
   ("best"%string, not_found)].

(** the validation answer of the first search arrives after the second
    search has been shown *)
Definition stale_response_applied : State Q :=
  step tables (ValidationResponse 1 (HttpOk conflict_on_aa100))
       second_search_shown.

(** a search answered with a result set that has no "cheapest" key *)
Definition fastest_only_shown : State Q :=
  run tables
    [Submit; RoutesResponse 1 request (HttpOk results_fastest_only)]
    page.

(** the page with a result set stored, as the submit handler leaves it
    before it renders the panes *)
Definition page_with (results : ResultSet Q) : State Q :=
  set_currentResults results page.

(** a found result whose path is empty *)
Definition results_empty_found : ResultSet Q :=
  [("cheapest"%string, found [])].


Definition report (n m : nat) : ConflictReport Q := {|
  summary := {| total_flights := inject_Z 40; successful := inject_Z 30;
                failed := inject_Z 10;
                conflict_breakdown :=
                  {| aircraft_conflicts := inject_Z 4;
                     runway_conflicts := inject_Z 3;
                     gate_conflicts := inject_Z 2;
                     positioning_conflicts := inject_Z 1 |} |};
  failed_flights := replicate n "F"%string;
  conflicts := replicate m "c"%string
|}.

(** a search that finds nothing, then the conflict panel opened and closed *)
Definition empty_panel_shown : State Q :=
  run tables
    [Submit; RoutesResponse 1 request (HttpOk results_none);
     ViewCollisions; CollisionReportResponse (HttpOk (report 0 0));
     CloseCollisions]
    page.

(** a first search shown; while the second one is on its way the conflict
    panel is opened and closed and the "fastest" tab clicked; then the
    second search answers that it found nothing *)
Definition stale_route_shown : State Q :=
  run tables
    [Submit; RoutesResponse 1 request (HttpOk results_all);
     Submit;
     ViewCollisions; CollisionReportResponse (HttpOk (report 0 0));
     CloseCollisions; TabClick 1;
     RoutesResponse 2 request (HttpOk results_none)]
    page.
End Sample.

(** ** Well-formed inputs

    A found result carries at least one leg, every key of the result set
    names a pane, no key occurs twice, and the page has a tab button for
    "cheapest": on such inputs [displayAllResults] throws nothing. *)

Definition well_formed {number} (r : RouteResult number) : bool :=
  if decide (status r = "found"%string)
  then match path r with
       | Some (_ :: _) => true
       | _ => false
       end
  else true.

Definition displayable {number} (s : State number) (results : ResultSet number)
  : bool :=
  forallb (λ kv, well_formed kv.2 && bool_decide (is_Some (tabPanes s !! kv.1)))
          results
  && bool_decide (NoDup results.*1)
  && existsb (λ btn, bool_decide (data_tab btn = "cheapest"%string))
             (tabButtons s).

(** The origin of leg [i] as the specification words it: the start airport
    for the first leg, the previous leg's destination afterwards. *)
Definition chained_origin {number} (legs : list (Leg number))
    (startNode : string) (i : nat) : option string :=
  match i with
  | O => Some startNode
  | S j => destination <$> legs !! j
  end.

(** Every key of the result set is the id of a pane.  The keys are fixed
    by the search contract ("cheapest", "fastest", "best"); on such result
    sets [displayPanes] does what the script does. *)
Definition keys_are_panes {number} (s : State number)
    (results : ResultSet number) : bool :=
  forallb (λ kv, bool_decide (is_Some (tabPanes s !! kv.1))) results.

(** The same for the result set an event carries, if it carries one. *)
Definition keys_name_panes {number} (s : State number)
    (ev : @Event number) : bool :=
  match ev with
  | RoutesResponse _ _ (HttpOk results) => keys_are_panes s results
  | _ => true
  end.

(** A layer as the earlier revision draws it: the popup carries no airport
    name. *)
Definition without_name {number} (layer : Layer number) : Layer number :=
  match layer with
  | Marker c popup =>
      Marker c {| popup_kind := popup_kind popup;
                  popup_name := None;
                  popup_code := popup_code popup |}
  | Polyline pts => Polyline pts
  end.

(** * Properties *)

Section Facts.
Context {number : Type} `{!JsNumber number}.
Variable tbl : Tables number.
Implicit Type s : State number.

(** ** Array accesses stay in range *)

Lemma prevDestination_in_range (legs : list (Leg number)) index :
  (0 < index ≤ length legs)%nat →
  ∃ leg, legs !! (index - 1)%nat = Some leg
         ∧ prevDestination legs index = destination leg.
Proof.
  intros [Hpos Hle].
  destruct (lookup_lt_is_Some_2 legs (index - 1)%nat) as [leg Hleg]; [lia|].
  exists leg. split; [done|]. unfold prevDestination. by rewrite Hleg.
Qed.

Lemma getProp_None {A} (o : JsObject A) k : k ∉ o.*1 → getProp o k = None.
Proof.
  induction o as [|[k' v] o IH]; [done|]. cbn. intros Hk.
  apply not_elem_of_cons in Hk as [Hne Hk].
  destruct (decide (k' = k)); [congruence|]. by apply IH.
Qed.

Lemma getProp_elem_of {A} (o : JsObject A) k v :
  NoDup o.*1 → (k, v) ∈ o → getProp o k = Some v.
Proof.
  induction o as [|[k' v'] o IH]; cbn; intros Hnd Hin.
  - by apply elem_of_nil in Hin.
  - apply NoDup_cons in Hnd as [Hk' Hnd].
    apply elem_of_cons in Hin as [Heq|Hin].
    + inversion Heq; subst. by rewrite decide_True.
    + destruct (decide (k' = k)) as [->|]; [|by apply IH].
      exfalso. apply Hk'. apply list_elem_of_fmap. by exists (k, v).
Qed.

(** ** The map renderer *)

(** [drawMapRoute] writes the route layer and the view frame only. *)
Lemma drawMapRoute_shape path startNode s :
  let s' := drawMapRoute tbl path startNode s in
  s' = set_mapView (mapView s') (set_routeLayer (routeLayer s') s).
Proof.
  unfold drawMapRoute.
  destruct path as [legs|]; [destruct (airportCoordinates tbl !! startNode)|];
    try reflexivity.
  by destruct (omap id (routePoints tbl legs startNode)).
Qed.

(** What is drawn does not depend on what the layer held before. *)
Lemma drawMapRoute_layer_fresh path startNode s s' :
  routeLayer (drawMapRoute tbl path startNode s)
  = routeLayer (drawMapRoute tbl path startNode s').
Proof.
  unfold drawMapRoute.
  destruct path as [legs|]; [destruct (airportCoordinates tbl !! startNode)|];
    try reflexivity.
  by destruct (omap id (routePoints tbl legs startNode)).
Qed.

(** One marker per resolved point, in the order of the points. *)
Lemma markers_follow_points
    (mk : nat → option (Coord number) → option (Layer number))
    (points : list (option (Coord number))) :
  (∀ i, mk i None = None) →
  (∀ i c, ∃ popup, mk i (Some c) = Some (Marker c popup)) →
  Forall2 (λ m c, ∃ popup, m = Marker c popup)
          (omap id (imap mk points)) (omap id points).
Proof.
  revert mk. induction points as [|p points IH]; intros mk Hnone Hsome.
  - constructor.
  - rewrite imap_cons. cbn. destruct p as [c|]; cbn.
    + destruct (Hsome 0%nat c) as [popup ->]. cbn. constructor; [by eexists|].
      apply IH; intros; [apply Hnone|apply Hsome].
    + rewrite Hnone. cbn. apply IH; intros; [apply Hnone|apply Hsome].
Qed.

Lemma pointMarker_None legs startNode n i :
  pointMarker tbl legs startNode n i None = None.
Proof. reflexivity. Qed.

Lemma pointMarker_Some legs startNode n i c :
  ∃ popup, pointMarker tbl legs startNode n i (Some c) = Some (Marker c popup).
Proof. cbn. by eexists. Qed.

Lemma omap_id_fmap {A B} (f : A → option B) (l : list A) :
  omap id (f <$> l) = omap f l.
Proof. induction l as [|x l IH]; cbn; [done|]. by rewrite IH. Qed.

Lemma routePoints_resolved legs startNode c0 :
  airportCoordinates tbl !! startNode = Some c0 →
  omap id (routePoints tbl legs startNode)
  = c0 :: omap (λ leg, airportCoordinates tbl !! destination leg) legs.
Proof. intros H0. unfold routePoints. rewrite H0. cbn. by rewrite omap_id_fmap. Qed.

(** The airport code of point [i] is the start for the first point and
    the destination of leg [i - 1] for the others. *)
Lemma routePoints_lookup legs startNode i p :
  routePoints tbl legs startNode !! i = Some p →
  ∃ code, chained_origin legs startNode i = Some code
          ∧ p = airportCoordinates tbl !! code
          ∧ (if (i =? 0)%nat then startNode else prevDestination legs i) = code.
Proof.
  unfold routePoints. destruct i as [|j].
  - cbn. intros [= <-]. by exists startNode.
  - change ((?x :: ?l) !! S j) with (l !! j). rewrite list_lookup_fmap.
    cbn [chained_origin Nat.eqb].
    destruct (legs !! j) as [leg|] eqn:Hj; [|done]. cbn.
    intros [= <-]. exists (destination leg). split_and!; [done..|].
    unfold prevDestination. cbn [Nat.sub]. by rewrite ?Nat.sub_0_r, Hj.
Qed.

(** ** Tabs and panes *)

Lemma tabClick_shape i s :
  tabClick tbl i s
  = set_mapView (mapView (tabClick tbl i s))
      (set_routeLayer (routeLayer (tabClick tbl i s))
         (set_tabPanes (tabPanes (tabClick tbl i s))
            (set_tabButtons (tabButtons (tabClick tbl i s)) s))).
Proof.
  unfold tabClick. destruct (tabButtons s !! i) as [button|]; [|by destruct s].
  match goal with |- drawMapRoute tbl ?p ?n ?x = _ =>
    generalize (drawMapRoute_shape p n x); cbn zeta;
    generalize (drawMapRoute tbl p n x) end.
  intros d ->. reflexivity.
Qed.

Lemma tabClick_panes i button s k :
  tabButtons s !! i = Some button →
  tabPanes (tabClick tbl i s) !! k
  = (λ pane, {| innerHTML := innerHTML pane;
                pane_active := bool_decide (k = data_tab button) |})
      <$> tabPanes s !! k.
Proof.
  intros Hb. unfold tabClick. rewrite Hb.
  rewrite drawMapRoute_shape. cbn. rewrite map_lookup_imap.
  by destruct (tabPanes s !! k).
Qed.

Lemma tabClick_buttons i button s j btn :
  tabButtons s !! i = Some button →
  tabButtons (tabClick tbl i s) !! j = Some btn →
  ∃ old, tabButtons s !! j = Some old
         ∧ data_tab btn = data_tab old
         ∧ btn_active btn = bool_decide (j = i).
Proof.
  intros Hb. unfold tabClick. rewrite Hb.
  rewrite drawMapRoute_shape. cbn. intros Hj.
  destruct (decide (i = j)) as [->|Hne].
  - rewrite list_lookup_insert_eq in Hj
      by (rewrite length_fmap; by eapply lookup_lt_Some).
    injection Hj as <-. exists button. by rewrite bool_decide_eq_true_2.
  - rewrite list_lookup_insert_ne in Hj by done.
    rewrite list_lookup_fmap in Hj.
    destruct (tabButtons s !! j) as [old|]; [|done]. injection Hj as <-.
    exists old. rewrite bool_decide_eq_false_2; [done|congruence].
Qed.

Lemma tabClick_layer i button s :
  tabButtons s !! i = Some button →
  routeLayer (tabClick tbl i s)
  = routeLayer (drawMapRoute tbl (getProp (currentResults s) (data_tab button) ≫= path)
                             (toUpperCase (start_airport (form s))) s).
Proof.
  intros Hb. unfold tabClick. rewrite Hb. cbn. apply drawMapRoute_layer_fresh.
Qed.

Lemma displayPanes_shape entries startNode s :
  (displayPanes tbl entries startNode s).1
  = set_tabPanes (tabPanes (displayPanes tbl entries startNode s).1) s.
Proof.
  revert s. induction entries as [|[type result] rest IH]; intros s; cbn.
  - by destruct s.
  - destruct (renderResult tbl startNode result); [by destruct s|].
    destruct (tabPanes s !! type); [|by destruct s].
    etrans; [apply IH|]. reflexivity.
Qed.

Lemma well_formed_renders startNode (r : RouteResult number) :
  well_formed r = true → ∃ c, renderResult tbl startNode r = inr c.
Proof.
  unfold well_formed, renderResult. destruct (decide _); [|by eauto].
  destruct (path r) as [[|leg legs]|]; try done. intros _.
  destruct (proj2 (last_is_Some (leg :: legs))) as [l ->]; [done|].
  cbn [head]. destruct (negative _); by eauto.
Qed.

Lemma displayPanes_ok entries startNode s :
  Forall (λ kv, well_formed kv.2 = true ∧ is_Some (tabPanes s !! kv.1)) entries →
  (displayPanes tbl entries startNode s).2 = None.
Proof.
  revert s. induction entries as [|[type result] rest IH]; intros s Hall; cbn.
  - done.
  - apply Forall_cons in Hall as [[Hwf [pane Hpane]] Hall]. cbn in *.
    destruct (well_formed_renders startNode _ Hwf) as [c ->]. rewrite Hpane.
    apply IH. eapply Forall_impl; [exact Hall|]. intros [k r] [? ?]; cbn in *.
    split; [done|]. apply lookup_insert_is_Some.
    destruct (decide (type = k)); [by left|by right].
Qed.

(** Panes whose key is not in the result set keep their content. *)
Lemma displayPanes_other entries startNode s k :
  k ∉ entries.*1 →
  tabPanes (displayPanes tbl entries startNode s).1 !! k = tabPanes s !! k.
Proof.
  revert s. induction entries as [|[type result] rest IH]; intros s Hk; cbn.
  - done.
  - cbn in Hk. apply not_elem_of_cons in Hk as [Hne Hk].
    destruct (renderResult tbl startNode result); [done|].
    destruct (tabPanes s !! type); [|done].
    rewrite IH by done. cbn. by rewrite lookup_insert_ne.
Qed.

(** Every entry's pane receives the content computed for that entry. *)
Lemma displayPanes_lookup entries startNode s k r :
  NoDup entries.*1 →
  (displayPanes tbl entries startNode s).2 = None →
  (k, r) ∈ entries →
  ∃ c pane, renderResult tbl startNode r = inr c
    ∧ tabPanes s !! k = Some pane
    ∧ tabPanes (displayPanes tbl entries startNode s).1 !! k
      = Some {| innerHTML := c; pane_active := pane_active pane |}.
Proof.
  revert s. induction entries as [|[type result] rest IH]; intros s Hnd Hok Hin.
  - by apply elem_of_nil in Hin.
  - cbn in Hnd. apply NoDup_cons in Hnd as [Htype Hnd]. cbn in Hok |- *.
    destruct (renderResult tbl startNode result) as [e|c0] eqn:Hr; [done|].
    destruct (tabPanes s !! type) as [p0|] eqn:Hp; [|done].
    apply elem_of_cons in Hin as [Heq|Hin].
    + inversion Heq; subst. exists c0, p0. split_and!; [done..|].
      rewrite displayPanes_other by done. cbn. by rewrite lookup_insert_eq.
    + assert (type ≠ k) as Hne.
      { intros ->. apply Htype. apply list_elem_of_fmap. by exists (k, r). }
      destruct (IH _ Hnd Hok Hin) as (c & p & ? & Hs & ?).
      cbn in Hs. rewrite lookup_insert_ne in Hs by done. by exists c, p.
Qed.

Lemma displayable_spec s results :
  displayable s results = true →
  Forall (λ kv, well_formed kv.2 = true ∧ is_Some (tabPanes s !! kv.1)) results
  ∧ NoDup results.*1
  ∧ ∃ i btn, list_find (λ btn, data_tab btn = "cheapest"%string) (tabButtons s)
             = Some (i, btn).
Proof.
  unfold displayable. rewrite !andb_true_iff. intros [[Hall Hnd] Hbtn].
  split_and!.
  - apply Forall_forall. intros kv Hkv.
    rewrite forallb_forall in Hall. specialize (Hall kv).
    rewrite andb_true_iff, bool_decide_eq_true in Hall.
    apply Hall. by apply list_elem_of_In.
  - by apply bool_decide_eq_true in Hnd.
  - apply existsb_exists in Hbtn as (btn & Hin & Hc).
    apply bool_decide_eq_true in Hc. apply list_elem_of_In in Hin.
    destruct (list_find_elem_of (λ btn, data_tab btn = "cheapest"%string)
                _ _ Hin Hc) as [[i b] ?].
    by exists i, b.
Qed.

(** What [displayAllResults] does on a displayable input: it writes the
    panes, then clicks the first "cheapest" button. *)
Lemma displayAllResults_ok results startNode s :
  displayable s results = true →
  ∃ i btn,
    tabButtons s !! i = Some btn
    ∧ data_tab btn = "cheapest"%string
    ∧ list_find (λ btn, data_tab btn = "cheapest"%string) (tabButtons s)
      = Some (i, btn)
    ∧ displayAllResults tbl results startNode s
      = (tabClick tbl i (displayPanes tbl results startNode s).1, None).
Proof.
  intros (Hall & Hnd & i & btn & Hfind)%displayable_spec.
  exists i, btn. pose proof Hfind as (Hi & Hc & _)%list_find_Some.
  split_and!; [done..|].
  unfold displayAllResults.
  pose proof (displayPanes_ok _ startNode _ Hall) as Hok.
  pose proof (displayPanes_shape results startNode s) as Hsh.
  destruct (displayPanes tbl results startNode s) as [s1 e]; cbn in *.
  subst e. rewrite Hsh. cbn. by rewrite Hfind.
Qed.

(** What the pane of an entry holds once [displayAllResults] is done. *)
Lemma displayAllResults_pane results startNode s type result :
  displayable s results = true →
  (type, result) ∈ results →
  ∃ c, renderResult tbl startNode result = inr c
    ∧ (displayAllResults tbl results startNode s).2 = None
    ∧ innerHTML <$> tabPanes (displayAllResults tbl results startNode s).1 !! type
      = Some c.
Proof.
  intros Hd Hin.
  destruct (displayAllResults_ok results startNode s Hd)
    as (i & btn & Hi & _ & _ & ->).
  apply displayable_spec in Hd as (Hall & Hnd & _).
  pose proof (displayPanes_ok _ startNode _ Hall) as Hok.
  destruct (displayPanes_lookup _ startNode _ _ _ Hnd Hok Hin)
    as (c & pane & Hc & _ & Hpane).
  exists c. split_and!; [done..|]. cbn [fst].
  rewrite (tabClick_panes i btn).
  - by rewrite Hpane.
  - by rewrite displayPanes_shape.
Qed.

Lemma totalCost_sum (legs : list (Leg number)) :
  totalCost legs = fold_left num_add (cost <$> legs) (num_of_Z 0).
Proof.
  unfold totalCost. generalize (num_of_Z 0).
  induction legs as [|leg legs IH]; intros acc; [done|]. cbn. apply IH.
Qed.

Lemma hasAnyRoute_false (results : ResultSet number) :
  Forall (λ kv, status kv.2 ≠ "found"%string) results →
  hasAnyRoute results = false.
Proof.
  unfold hasAnyRoute. induction 1 as [|kv rest Hkv _ IH]; [done|]. cbn.
  by rewrite bool_decide_eq_false_2, IH.
Qed.

(** ** Warning banners are only ever added *)

Lemma drawMapRoute_warnings path startNode s :
  warnings (drawMapRoute tbl path startNode s) = warnings s.
Proof. by rewrite drawMapRoute_shape. Qed.

Lemma tabClick_warnings i s : warnings (tabClick tbl i s) = warnings s.
Proof. by rewrite tabClick_shape. Qed.

Lemma displayAllResults_warnings results startNode s :
  warnings (displayAllResults tbl results startNode s).1 = warnings s.
Proof.
  unfold displayAllResults.
  pose proof (displayPanes_shape results startNode s) as Hsh.
  destruct (displayPanes tbl results startNode s) as [s1 [e|]]; cbn in *.
  - by rewrite Hsh.
  - destruct (list_find _ _) as [[i btn]|]; cbn.
    + rewrite tabClick_warnings. by rewrite Hsh.
    + by rewrite Hsh.
Qed.

Lemma submit_resume_warnings requestData resp s :
  warnings (submit_resume tbl requestData resp s) = warnings s.
Proof.
  unfold submit_resume. destruct resp as [results| |]; try reflexivity.
  destruct (negb (hasAnyRoute results)); [reflexivity|].
  match goal with |- context [displayAllResults tbl ?r ?n ?x] =>
    pose proof (displayAllResults_warnings r n x) as Hw;
    destruct (displayAllResults tbl r n x) as [s1 [e|]] end; cbn in *.
  - exact Hw.
  - unfold validateCurrentPath_begin. by destruct (decide _).
Qed.

Lemma step_warnings ev s : warnings s `suffix_of` warnings (step tbl ev s).
Proof.
  destruct ev as [f| |g rd resp|g resp|i| |resp|]; cbn [step].
  - done.
  - done.
  - by rewrite submit_resume_warnings.
  - destruct resp as [v| |]; cbn; [|done..].
    destruct (conflicts_detected v); cbn; [by apply suffix_cons_r|done].
  - by rewrite tabClick_warnings.
  - done.
  - by destruct resp.
  - unfold closeCollisions. by destruct (_ <? _)%nat.
Qed.

Lemma run_warnings evs s : warnings s `suffix_of` warnings (run tbl evs s).
Proof.
  revert s. induction evs as [|ev evs IH]; intros s; [done|]. cbn.
  etrans; [apply (step_warnings ev)|apply IH].
Qed.
End Facts.

(** * The claims *)

Section Claims.
Context {number : Type} `{!JsNumber number}.
Variable tbl : Tables number.
Implicit Type s : State number.

(** C1 (as amended).  The script keeps no generation token: a
    conflict-validation response reporting conflicts is applied whatever
    search generation [gen] it belongs to, also an older one than the
    current.  It inserts exactly one warning banner at the front of the
    results panel and hides the loading spinner; nothing else changes. *)
Theorem validation_response_applied_whatever_generation
    (gen : nat) (validation : Validation) s :
  conflicts_detected validation = true →
  let s' := step tbl (ValidationResponse gen (HttpOk validation)) s in
  warnings s'
  = {| banner_count := length (conflicted_flights validation);
       banner_flights := flight <$> conflicted_flights validation |}
      :: warnings s
  ∧ loadingSpinner_hidden s' = true
  ∧ s' = set_loadingSpinner_hidden true (set_warnings (warnings s') s).
Proof.
  intros Hc. cbn. unfold validation_resume, validateCurrentPath_resume.
  rewrite Hc. by split_and!.
Qed.

(** X21.  In the current revision a found route whose total duration (last
    arrival minus first departure) is negative is rendered as the data-error
    notice alone: its pane holds neither an aggregate line nor any leg
    entry. *)
Theorem negative_total_duration_shows_only_error_notice
    (results : ResultSet number) (startNode : string) s
    (type : string) (result : RouteResult number)
    (legs : list (Leg number)) (firstLeg lastLeg : Leg number) :
  displayable s results = true →
  (type, result) ∈ results →
  status result = "found"%string →
  path result = Some legs →
  head legs = Some firstLeg →
  last legs = Some lastLeg →
  negative (dateDiff (arrival_utc lastLeg) (departure_utc firstLeg)) = true →
  let out := displayAllResults tbl results startNode s in
  renderResult tbl startNode result = inr [ErrorNotice]
  ∧ out.2 = None
  ∧ innerHTML <$> tabPanes out.1 !! type = Some [ErrorNotice].
Proof.
  intros Hd Hin Hst Hpath Hhead Hlast Hneg out.
  assert (renderResult tbl startNode result = inr [ErrorNotice]) as Hr.
  { unfold renderResult. rewrite decide_True by done.
    by rewrite Hpath, Hhead, Hlast, Hneg. }
  destruct (displayAllResults_pane tbl results startNode s type result Hd Hin)
    as (c & Hc & Hok & Hpane).
  rewrite Hr in Hc. injection Hc as <-. by split_and!.
Qed.


(** C2 (a defect of the earlier revision).  For a found route whose total
    duration is negative the current revision computes the data-error notice
    alone, as the claim says, while the earlier revision of the same
    function has no test of the duration: it computes the totals line with
    the negative duration, followed by one entry per leg. *)
Theorem earlier_revision_renders_negative_total_duration
    (startNode : string) (result : RouteResult number)
    (legs : list (Leg number)) (firstLeg lastLeg : Leg number) :
  status result = "found"%string →
  path result = Some legs →
  head legs = Some firstLeg →
  last legs = Some lastLeg →
  negative (dateDiff (arrival_utc lastLeg) (departure_utc firstLeg)) = true →
  renderResult tbl startNode result = inr [ErrorNotice]
  ∧ Legacy.renderResult tbl startNode result
    = inr (PlainTotals (num_toFixed 2 (totalCost legs))
                       (dateDiff (arrival_utc lastLeg) (departure_utc firstLeg))
           :: imap (Legacy.renderLeg tbl legs startNode) legs)
  ∧ Legacy.renderResult tbl startNode result ≠ inr [PlainNoRoute]
  ∧ Legacy.renderResult tbl startNode result ≠ inr [ErrorNotice].
Proof.
  intros Hst Hpath Hhead Hlast Hneg.
  unfold renderResult, Legacy.renderResult. rewrite !decide_True by done.
  rewrite Hpath, Hhead, Hlast, Hneg. by split_and!.
Qed.

(** C3 (a defect of the current revision).  The answer of a search that
    found no route is stored in [currentResults] before the test that some
    route was found.  The handler itself alerts and shows nothing, but the
    close button of the conflict panel shows the results panel whenever
    [currentResults] has a key: after such an answer, opening and closing
    the conflict panel shows the results panel, with panes that were never
    rendered for this search. *)
Theorem no_route_answer_is_shown_by_closing_the_conflict_panel
    (gen : nat) (requestData : RequestData) (results : ResultSet number)
    (resp : Http (ConflictReport number)) s :
  results ≠ [] →
  Forall (λ kv, status kv.2 ≠ "found"%string) results →
  let answered :=
    run tbl [Submit; RoutesResponse gen requestData (HttpOk results)] s in
  let closed :=
    run tbl [ViewCollisions; CollisionReportResponse resp; CloseCollisions]
        answered in
  resultsTabs_hidden answered = true
  ∧ resultsTabs_hidden closed = false
  ∧ tabPanes closed = tabPanes s
  ∧ currentResults closed = results
  ∧ warnings closed = warnings s.
Proof.
  intros Hne Hnone%hasAnyRoute_false answered closed.
  subst closed answered. unfold run. cbn [fold_left step].
  unfold submit_resume. rewrite Hnone. cbn [negb].
  unfold closeCollisions.
  destruct results as [|kv results]; [done|].
  by destruct resp.
Qed.

(** C4.  In the pane of a found route, the entry of leg [i] follows the
    aggregate line at position [i + 1], no leg being dropped; when the leg
    is rendered in detail its origin is the search start for [i = 0] and
    the destination of leg [i - 1] of the original sequence otherwise,
    whether or not that previous leg is flagged invalid. *)
Theorem leg_origin_chains_over_unfiltered_path
    (results : ResultSet number) (startNode : string) s
    (type : string) (result : RouteResult number)
    (legs : list (Leg number)) (firstLeg lastLeg : Leg number)
    (i : nat) (leg : Leg number) :
  displayable s results = true →
  (type, result) ∈ results →
  status result = "found"%string →
  path result = Some legs →
  head legs = Some firstLeg →
  last legs = Some lastLeg →
  negative (dateDiff (arrival_utc lastLeg) (departure_utc firstLeg)) = false →
  legs !! i = Some leg →
  let out := displayAllResults tbl results startNode s in
  let airlineName := nameOr (airlineNames tbl) (airline leg) "Unknown Airline" in
  ∃ origin content,
    chained_origin legs startNode i = Some origin
    ∧ out.2 = None
    ∧ innerHTML <$> tabPanes out.1 !! type = Some content
    ∧ length content = S (length legs)
    ∧ content !! S i
      = Some
          (if negative (dateDiff (arrival_utc leg) (departure_utc leg))
           then ErrorLeg airlineName (airline leg) (flight_number leg)
           else DetailLeg airlineName (airline leg) (flight_number leg)
                  (num_toString (cost leg))
                  (nameOr (airportNames tbl) origin origin) origin
                  (nameOr (airportNames tbl) (destination leg) (destination leg))
                  (destination leg)
                  (departure_utc leg) (arrival_utc leg)
                  (dateDiff (arrival_utc leg) (departure_utc leg))
                  (aircraft leg)).
Proof.
  intros Hd Hin Hst Hpath Hhead Hlast Hneg Hleg out airlineName.
  destruct (displayAllResults_pane tbl results startNode s type result Hd Hin)
    as (c & Hc & Hok & Hpane).
  unfold renderResult in Hc. rewrite decide_True in Hc by done.
  rewrite Hpath, Hhead, Hlast, Hneg in Hc. injection Hc as <-.
  assert (∃ origin, chained_origin legs startNode i = Some origin
            ∧ (if (i =? 0)%nat then startNode else prevDestination legs i)
              = origin) as (origin & Ho & Heq).
  { destruct i as [|j]; [by eexists|]. cbn.
    destruct (prevDestination_in_range legs (S j)) as (prev & Hprev & Hd').
    { apply lookup_lt_Some in Hleg. lia. }
    cbn in Hprev. rewrite Nat.sub_0_r in Hprev. rewrite Hprev.
    by exists (destination prev). }
  exists origin. eexists. split_and!; [done..| |].
  - cbn. by rewrite length_imap.
  - change ((?x :: ?l) !! S i) with (l !! i).
    rewrite list_lookup_imap, Hleg. cbn [fmap option_fmap option_map].
    unfold renderLeg. rewrite Heq. by destruct (negative _).
Qed.

(** C5.  When a found route is rendered with an aggregate line, the total
    cost shown is the sum, from 0 and in flight order, of the cost of every
    leg of the route, formatted with two decimals; legs flagged invalid
    are summed like the others. *)
Theorem total_cost_sums_every_leg
    (results : ResultSet number) (startNode : string) s
    (type : string) (result : RouteResult number)
    (legs : list (Leg number)) (firstLeg lastLeg : Leg number) :
  displayable s results = true →
  (type, result) ∈ results →
  status result = "found"%string →
  path result = Some legs →
  head legs = Some firstLeg →
  last legs = Some lastLeg →
  negative (dateDiff (arrival_utc lastLeg) (departure_utc firstLeg)) = false →
  let out := displayAllResults tbl results startNode s in
  ∃ entries,
    out.2 = None
    ∧ innerHTML <$> tabPanes out.1 !! type
      = Some (AggregateLine
                (num_toFixed 2 (fold_left num_add (cost <$> legs) (num_of_Z 0)))
                (dateDiff (arrival_utc lastLeg) (departure_utc firstLeg))
                (Z.of_nat (length legs) - 1)
              :: entries)
    ∧ length entries = length legs.
Proof.
  intros Hd Hin Hst Hpath Hhead Hlast Hneg out.
  destruct (displayAllResults_pane tbl results startNode s type result Hd Hin)
    as (c & Hc & Hok & Hpane).
  unfold renderResult in Hc. rewrite decide_True in Hc by done.
  rewrite Hpath, Hhead, Hlast, Hneg, totalCost_sum in Hc. injection Hc as <-.
  eexists. split_and!; [done..|]. by rewrite length_imap.
Qed.

(** C6 (as amended).  A search submission hides the results and conflict
    panels and clears the map's route layer before its request is sent, and
    it leaves the warning banners where they are.  When its answer has a
    found route and is rendered, the route layer is redrawn from scratch for
    the path stored under "cheapest": it holds nothing of what was drawn
    before.  No banner is removed then or later: as long as the keys of the
    answers name panes, the banners inserted for earlier searches are still
    in the results panel in every state reached afterwards. *)
Theorem submit_clears_map_but_keeps_warnings s :
  routeLayer (step tbl Submit s) = []
  ∧ resultsTabs_hidden (step tbl Submit s) = true
  ∧ collisionPanel_hidden (step tbl Submit s) = true
  ∧ warnings (step tbl Submit s) = warnings s
  ∧ (∀ (gen : nat) (requestData : RequestData) (results : ResultSet number)
       (s0 : State number),
       hasAnyRoute results = true →
       displayable s results = true →
       routeLayer (step tbl (RoutesResponse gen requestData (HttpOk results)) s)
       = routeLayer (drawMapRoute tbl (getProp results "cheapest" ≫= path)
                                  (toUpperCase (start_airport (form s))) s0))
  ∧ ∀ evs : list Event,
      forallb (keys_name_panes s) evs = true →
      warnings s `suffix_of` warnings (run tbl evs s).
Proof.
  split_and!; try reflexivity.
  - intros gen requestData results s0 Hany Hd.
    cbn [step]. unfold submit_resume. rewrite Hany. cbn [negb].
    set (s1 := console_log (LogReceived results) (set_currentResults results s)).
    destruct (displayAllResults_ok tbl results (start requestData) s1 Hd)
      as (i & btn & Hi & Hc & _ & ->).
    set (s2 := (displayPanes tbl results (start requestData) s1).1).
    assert (s2 = set_tabPanes (tabPanes s2) s1) as Hsh
      by apply displayPanes_shape.
    assert (tabButtons s2 !! i = Some btn) as Hi2 by by rewrite Hsh.
    transitivity (routeLayer (tabClick tbl i s2)).
    { unfold validateCurrentPath_begin. by destruct (decide _). }
    rewrite (tabClick_layer tbl i btn) by done. rewrite Hc.
    rewrite Hsh at 1 2. cbn. apply drawMapRoute_layer_fresh.
  - intros evs _. apply run_warnings.
Qed.

(** C7 (as amended).  When the start airport has coordinates, a leg
    destination without coordinates gets no marker and is left out of the
    connecting path, and the remaining points are drawn in order: one
    marker per resolved point, then the path through exactly these points,
    to which the view is fitted.  When the start airport has no
    coordinates, the layer is cleared and nothing is drawn. *)
Theorem drawMapRoute_skips_unresolved_destinations
    (legs : list (Leg number)) (startNode : string) s :
  let s' := drawMapRoute tbl (Some legs) startNode s in
  match airportCoordinates tbl !! startNode with
  | Some c0 =>
      let line :=
        c0 :: omap (λ leg, airportCoordinates tbl !! destination leg) legs in
      ∃ markers,
        routeLayer s' = markers ++ [Polyline line]
        ∧ Forall2 (λ m c, ∃ popup, m = Marker c popup) markers line
        ∧ mapView s' = FitBounds line
  | None => routeLayer s' = [] ∧ mapView s' = mapView s
  end.
Proof.
  intros s'. subst s'. unfold drawMapRoute.
  destruct (airportCoordinates tbl !! startNode) as [c0|] eqn:H0; [|done].
  pose proof (routePoints_resolved tbl legs startNode c0 H0) as Hline.
  eexists. split_and!.
  - rewrite Hline. reflexivity.
  - rewrite <- Hline. apply markers_follow_points.
    + intros. apply pointMarker_None.
    + intros. apply pointMarker_Some.
  - rewrite Hline. reflexivity.
Qed.

(** C8 (as amended).  Once the panes are populated, the tab activated by
    default is always "cheapest", whether or not the result set has that
    key: its button is the only active one, its pane the only active pane,
    and the map is redrawn for the path stored under "cheapest", which
    leaves the route layer empty when that key is absent. *)
Theorem default_tab_is_always_cheapest
    (results : ResultSet number) (startNode : string) s :
  displayable s results = true →
  currentResults s = results →
  let out := displayAllResults tbl results startNode s in
  out.2 = None
  ∧ (∃ j btn, tabButtons out.1 !! j = Some btn ∧ btn_active btn = true)
  ∧ (∀ j btn, tabButtons out.1 !! j = Some btn → btn_active btn = true →
              data_tab btn = "cheapest"%string)
  ∧ (∀ k pane, tabPanes out.1 !! k = Some pane →
               pane_active pane = bool_decide (k = "cheapest"%string))
  ∧ routeLayer out.1
    = routeLayer (drawMapRoute tbl (getProp results "cheapest" ≫= path)
                               (toUpperCase (start_airport (form s))) s)
  ∧ (getProp results "cheapest" = None → routeLayer out.1 = []).
Proof.
  intros Hd Hcur out. subst out.
  destruct (displayAllResults_ok tbl results startNode s Hd)
    as (i & btn & Hi & Hc & Hfind & ->).
  cbn [fst snd].
  set (s1 := (displayPanes tbl results startNode s).1).
  assert (s1 = set_tabPanes (tabPanes s1) s) as Hsh
    by apply displayPanes_shape.
  assert (tabButtons s1 !! i = Some btn) as Hi1 by by rewrite Hsh.
  assert (routeLayer (tabClick tbl i s1)
          = routeLayer (drawMapRoute tbl (getProp results "cheapest" ≫= path)
                          (toUpperCase (start_airport (form s))) s)) as Hlayer.
  { rewrite (tabClick_layer tbl i btn) by done. rewrite Hc.
    rewrite Hsh at 1 2. cbn. rewrite Hcur. apply drawMapRoute_layer_fresh. }
  split_and!.
  - done.
  - assert (i < length (tabButtons (tabClick tbl i s1)))%nat as Hlt.
    { unfold tabClick. rewrite Hi1, drawMapRoute_shape. cbn.
      rewrite length_insert, length_fmap. by eapply lookup_lt_Some. }
    destruct (lookup_lt_is_Some_2 _ _ Hlt) as [b Hb]. exists i, b.
    split; [done|].
    destruct (tabClick_buttons tbl i btn s1 i b Hi1 Hb) as (_ & _ & _ & ->).
    by rewrite bool_decide_eq_true_2.
  - intros j b Hb Hact.
    destruct (tabClick_buttons tbl i btn s1 j b Hi1 Hb) as (old & Hold & Hdt & Ha).
    rewrite Ha in Hact. apply bool_decide_eq_true in Hact as ->.
    rewrite Hdt. congruence.
  - intros k pane. rewrite (tabClick_panes tbl i btn) by done. rewrite Hc.
    destruct (tabPanes s1 !! k); [|done]. by intros [= <-].
  - done.
  - intros Hnone. rewrite Hlayer, Hnone. reflexivity.
Qed.

(** C9.  Drawing the same route twice in a row leaves the route layer and
    the view exactly as drawing it once; every draw starts by clearing the
    layer, so its result does not depend on what the layer held. *)
Theorem drawMapRoute_idempotent
    (path : option (list (Leg number))) (startNode : string) s :
  drawMapRoute tbl path startNode (drawMapRoute tbl path startNode s)
  = drawMapRoute tbl path startNode s
  ∧ ∀ layer : list (Layer number),
      drawMapRoute tbl path startNode (set_routeLayer layer s)
      = drawMapRoute tbl path startNode s.
Proof.
  unfold drawMapRoute.
  destruct path as [legs|]; [destruct (airportCoordinates tbl !! startNode)|];
    try (split; reflexivity).
  destruct (omap id (routePoints tbl legs startNode)); split; reflexivity.
Qed.

(** C10.  The conflict-report panel shows the first 20 failed-flight
    identifiers, in their order, with a "+N more" indicator exactly when
    there are more than 20 (N being the number left out), and the first 10
    conflict descriptions, in their order. *)
Theorem displayCollisionData_truncates_lists (data : ConflictReport number) s :
  ∃ view,
    collisionData (displayCollisionData data s) = ReportHtml view
    ∧ badges view = take 20 (failed_flights data)
    ∧ length (badges view) = (20 `min` length (failed_flights data))%nat
    ∧ badges view `prefix_of` failed_flights data
    ∧ more_indicator view
      = (if (20 <? length (failed_flights data))%nat
         then Some (length (failed_flights data) - 20)%nat
         else None)
    ∧ conflict_items view = take 10 (conflicts data)
    ∧ length (conflict_items view) = (10 `min` length (conflicts data))%nat
    ∧ conflict_items view `prefix_of` conflicts data.
Proof.
  eexists. split; [reflexivity|].
  cbn [badges more_indicator conflict_items].
  split_and!; try reflexivity.
  - apply length_take.
  - apply prefix_take.
  - apply length_take.
  - apply prefix_take.
Qed.
End Claims.

(** * The claims on the sample data *)

Lemma validation_response_applied_whatever_generation_witness :
  (1 < generation Sample.second_search_shown)%nat
  ∧ conflicts_detected Sample.conflict_on_aa100 = true
  ∧ warnings Sample.stale_response_applied
    = {| banner_count := 1; banner_flights := ["AA100"%string] |}
        :: warnings Sample.second_search_shown.
Proof.
  split; [vm_compute; lia|]. split; [reflexivity|].
  exact (proj1 (validation_response_applied_whatever_generation
                  Sample.tables 1 Sample.conflict_on_aa100
                  Sample.second_search_shown eq_refl)).
Defined.

(** C1, as stated, fails: after a second search has been submitted and
    shown (generation 2), the late validation answer of the first search
    (generation 1) still puts its banner on the results panel. *)
Lemma stale_validation_response_is_not_discarded :
  generation Sample.second_search_shown = 2%nat
  ∧ warnings Sample.second_search_shown = []
  ∧ warnings Sample.stale_response_applied
    = [ {| banner_count := 1; banner_flights := ["AA100"%string] |} ]
  ∧ Sample.stale_response_applied ≠ Sample.second_search_shown.
Proof.
  split_and!; try (vm_compute; reflexivity).
  intros Heq. apply (f_equal warnings) in Heq. vm_compute in Heq. discriminate.
Qed.

Lemma negative_total_duration_shows_only_error_notice_witness :
  displayable (Sample.page_with Sample.results_backwards)
              Sample.results_backwards = true
  ∧ negative (dateDiff (Some 0%Z) (Some 93600000%Z)) = true
  ∧ innerHTML <$>
      tabPanes (displayAllResults Sample.tables Sample.results_backwards "JFK"
                  (Sample.page_with Sample.results_backwards)).1
        !! "cheapest"%string
    = Some [ErrorNotice].
Proof.
  split; [vm_compute; reflexivity|]. split; [reflexivity|].
  refine (proj2 (proj2
    (negative_total_duration_shows_only_error_notice Sample.tables
       Sample.results_backwards "JFK" (Sample.page_with Sample.results_backwards)
       "cheapest" (Sample.found Sample.backwards) Sample.backwards
       (Sample.leg "AA300" "LAX" 93600000 0 200)
       (Sample.leg "AA300" "LAX" 93600000 0 200)
       _ _ _ _ _ _ _)));
    first [apply list_elem_of_here | vm_compute; reflexivity].
Defined.


Lemma leg_origin_chains_over_unfiltered_path_witness :
  Sample.with_bad_leg !! 2%nat
  = Some (Sample.leg "AA200" "LAX" 10800000 25200000 25)
  ∧ negative (dateDiff (Some 8000000%Z) (Some 9000000%Z)) = true
  ∧ ∃ content,
      innerHTML <$>
        tabPanes (displayAllResults Sample.tables Sample.results_bad_leg "JFK"
                    (Sample.page_with Sample.results_bad_leg)).1
          !! "cheapest"%string
      = Some content
      ∧ content !! 3%nat
        = Some (DetailLeg "American Airlines" "AA" "AA200" "25"
                  "DEN" "DEN" "Los Angeles" "LAX"
                  (Some 10800000%Z) (Some 25200000%Z) (Some 14400000%Z) "B738").
Proof.
  split; [reflexivity|]. split; [reflexivity|].
  destruct (leg_origin_chains_over_unfiltered_path Sample.tables
              Sample.results_bad_leg "JFK"
              (Sample.page_with Sample.results_bad_leg)
              "cheapest" (Sample.found Sample.with_bad_leg) Sample.with_bad_leg
              (Sample.leg "AA100" "ORD" 0 7200000 100)
              (Sample.leg "AA200" "LAX" 10800000 25200000 25)
              2 (Sample.leg "AA200" "LAX" 10800000 25200000 25))
    as (origin & content & Ho & _ & Hpane & _ & Hi);
    try first [apply list_elem_of_here | vm_compute; reflexivity].
  exists content. split; [exact Hpane|].
  injection Ho as <-. exact Hi.
Defined.

Lemma total_cost_sums_every_leg_witness :
  displayable (Sample.page_with Sample.results_bad_leg)
              Sample.results_bad_leg = true
  ∧ ∃ entries,
      innerHTML <$>
        tabPanes (displayAllResults Sample.tables Sample.results_bad_leg "JFK"
                    (Sample.page_with Sample.results_bad_leg)).1
          !! "cheapest"%string
      = Some (AggregateLine "175.00" (Some 25200000%Z) 2 :: entries).
Proof.
  split; [vm_compute; reflexivity|].
  destruct (total_cost_sums_every_leg Sample.tables
              Sample.results_bad_leg "JFK"
              (Sample.page_with Sample.results_bad_leg)
              "cheapest" (Sample.found Sample.with_bad_leg) Sample.with_bad_leg
              (Sample.leg "AA100" "ORD" 0 7200000 100)
              (Sample.leg "AA200" "LAX" 10800000 25200000 25))
    as (entries & _ & Hpane & _);
    try first [apply list_elem_of_here | vm_compute; reflexivity].
  exists entries. exact Hpane.
Defined.

(** C6, as stated, fails, for the banners and for the map.  The banner
    inserted for the first search is still at the front of the results
    panel, and the panel is visible, after a second search has completed
    without any conflict.  And a route of the first search is on the map
    after the second search has completed: it was drawn by a click on the
    "fastest" tab (visible again once the conflict panel was opened and
    closed) while the second request was on its way, and the second answer,
    which found nothing, draws nothing. *)
Lemma earlier_banner_survives_new_search :
  generation Sample.after_clean_second_search = 2%nat
  ∧ warnings Sample.after_clean_second_search
    = [ {| banner_count := 1; banner_flights := ["AA100"%string] |} ]
  ∧ resultsTabs_hidden Sample.after_clean_second_search = false
  ∧ loadingSpinner_hidden Sample.after_clean_second_search = true
  ∧ generation Sample.stale_route_shown = 2%nat
  ∧ head (effects Sample.stale_route_shown)
    = Some (Alerted (NoRoutesAlert "JFK" "LAX"))
  ∧ currentResults Sample.stale_route_shown = Sample.results_none
  ∧ routeLayer Sample.stale_route_shown
    = routeLayer (drawMapRoute Sample.tables (Some Sample.direct) "JFK"
                               Sample.page)
  ∧ routeLayer Sample.stale_route_shown ≠ [].
Proof.
  split_and!; try (vm_compute; reflexivity).
  intros Heq. vm_compute in Heq. discriminate.
Qed.

Lemma submit_clears_map_but_keeps_warnings_witness :
  forallb (keys_name_panes Sample.page)
    [Submit; RoutesResponse 1 Sample.request (HttpOk Sample.results_all);
     ValidationResponse 1 (HttpOk Sample.conflict_on_aa100);
     Submit; RoutesResponse 2 Sample.request (HttpOk Sample.results_all);
     ValidationResponse 2 (HttpOk Sample.no_conflict)]
  = true
  ∧ warnings Sample.page `suffix_of` warnings Sample.after_clean_second_search
  ∧ routeLayer
      (step Sample.tables
         (RoutesResponse 1 Sample.request (HttpOk Sample.results_all))
         (Sample.page_with Sample.results_backwards))
    = routeLayer (drawMapRoute Sample.tables (Some Sample.via_ord) "JFK"
                               Sample.page).
Proof.
  split; [vm_compute; reflexivity|].
  destruct (submit_clears_map_but_keeps_warnings Sample.tables Sample.page)
    as (_ & _ & _ & _ & _ & Hkeep).
  destruct (submit_clears_map_but_keeps_warnings Sample.tables
              (Sample.page_with Sample.results_backwards))
    as (_ & _ & _ & _ & Hdraw & _).
  split.
  - apply (Hkeep
             [Submit; RoutesResponse 1 Sample.request (HttpOk Sample.results_all);
              ValidationResponse 1 (HttpOk Sample.conflict_on_aa100);
              Submit; RoutesResponse 2 Sample.request (HttpOk Sample.results_all);
              ValidationResponse 2 (HttpOk Sample.no_conflict)]).
    vm_compute; reflexivity.
  - apply (Hdraw 1%nat Sample.request Sample.results_all Sample.page);
      vm_compute; reflexivity.
Defined.

(** DEN has no coordinates: JFK → ORD → DEN → LAX is drawn with three
    markers and a path through JFK, ORD and LAX. *)
Example unresolved_layover_is_left_out :
  airportCoordinates Sample.tables !! "DEN"%string = None
  ∧ ∃ markers,
      routeLayer (drawMapRoute Sample.tables (Some Sample.with_bad_leg) "JFK"
                               Sample.page)
      = markers
        ++ [Polyline [Sample.coord 40 (-73); Sample.coord 41 (-87);
                      Sample.coord 33 (-118)]]
      ∧ length markers = 3%nat.
Proof.
  split; [vm_compute; reflexivity|].
  pose proof (drawMapRoute_skips_unresolved_destinations Sample.tables
                Sample.with_bad_leg "JFK" Sample.page) as H.
  change (airportCoordinates Sample.tables !! "JFK"%string)
    with (Some (Sample.coord 40 (-73))) in H.
  destruct H as (markers & Hlayer & Hmarkers & _).
  exists markers. split; [exact Hlayer|].
  apply Forall2_length in Hmarkers. exact Hmarkers.
Qed.

(** C7, as stated, fails: when the start airport has no coordinates the
    renderer returns after clearing the layer, so the destination LAX, which
    has coordinates, gets neither a marker nor a path. *)
Lemma unknown_start_aborts_drawing :
  airportCoordinates Sample.tables !! "XXX"%string = None
  ∧ airportCoordinates Sample.tables !! "LAX"%string
    = Some (Sample.coord 33 (-118))
  ∧ destination <$> Sample.direct = ["LAX"%string]
  ∧ routeLayer (drawMapRoute Sample.tables (Some Sample.direct) "XXX" Sample.page)
    = [].
Proof. split_and!; vm_compute; reflexivity. Qed.

Lemma default_tab_is_always_cheapest_witness :
  displayable (Sample.page_with Sample.results_all) Sample.results_all = true
  ∧ routeLayer (displayAllResults Sample.tables Sample.results_all "JFK"
                  (Sample.page_with Sample.results_all)).1
    = routeLayer (drawMapRoute Sample.tables (Some Sample.via_ord) "JFK"
                    (Sample.page_with Sample.results_all)).
Proof.
  split; [vm_compute; reflexivity|].
  pose proof (default_tab_is_always_cheapest Sample.tables Sample.results_all
                "JFK" (Sample.page_with Sample.results_all)) as H.
  cbn zeta in H.
  destruct H as (_ & _ & _ & _ & Hlayer & _); [vm_compute; reflexivity..|].
  exact Hlayer.
Defined.

(** C8, as stated, fails: the result set has no "cheapest" key and a found
    "fastest" route, yet the tab made active is "cheapest", the "fastest"
    pane is inactive and no route is drawn. *)
Lemma missing_cheapest_is_still_the_default_tab :
  getProp Sample.results_fastest_only "cheapest" = None
  ∧ getProp Sample.results_fastest_only "fastest"
    = Some (Sample.found Sample.direct)
  ∧ tabButtons Sample.fastest_only_shown
    = [ {| data_tab := "cheapest"; btn_active := true |};
        {| data_tab := "fastest"; btn_active := false |};
        {| data_tab := "best"; btn_active := false |} ]
  ∧ pane_active <$> tabPanes Sample.fastest_only_shown !! "fastest"%string
    = Some false
  ∧ resultsTabs_hidden Sample.fastest_only_shown = false
  ∧ routeLayer Sample.fastest_only_shown = [].
Proof. split_and!; vm_compute; reflexivity. Qed.

(** * The earlier revision

    What carries over to the earlier revision of the script, and where it
    differs: it has neither the check of the total duration nor the check
    that some route was found. *)

Section LegacyFacts.
Context {number : Type} `{!JsNumber number}.
Variable tbl : Tables number.
Implicit Type s : State number.

(** X18.  In the earlier revision too, drawing the same route twice in a
    row leaves the route layer and the view as drawing it once, whatever the
    layer held before. *)
Lemma legacy_drawMapRoute_idempotent
    (path : option (list (Leg number))) (startNode : string) s :
  Legacy.drawMapRoute tbl path startNode (Legacy.drawMapRoute tbl path startNode s)
  = Legacy.drawMapRoute tbl path startNode s
  ∧ ∀ layer : list (Layer number),
      Legacy.drawMapRoute tbl path startNode (set_routeLayer layer s)
      = Legacy.drawMapRoute tbl path startNode s.
Proof.
  unfold Legacy.drawMapRoute.
  destruct path as [legs|]; [destruct (airportCoordinates tbl !! startNode)|];
    try (split; reflexivity).
  destruct (omap id (routePoints tbl legs startNode)); split; reflexivity.
Qed.

Lemma legacy_drawMapRoute_skips_unresolved_destinations
    (legs : list (Leg number)) (startNode : string) s (c0 : Coord number) :
  airportCoordinates tbl !! startNode = Some c0 →
  ∃ markers,
    routeLayer (Legacy.drawMapRoute tbl (Some legs) startNode s)
    = markers
      ++ [Polyline (c0 :: omap (λ leg, airportCoordinates tbl !! destination leg)
                               legs)]
    ∧ Forall2 (λ m c, ∃ popup, m = Marker c popup) markers
        (c0 :: omap (λ leg, airportCoordinates tbl !! destination leg) legs).
Proof.
  intros H0. unfold Legacy.drawMapRoute. rewrite H0.
  pose proof (routePoints_resolved tbl legs startNode c0 H0) as Hline.
  eexists. split.
  - rewrite Hline. reflexivity.
  - rewrite <- Hline. apply markers_follow_points.
    + reflexivity.
    + intros. cbn. by eexists.
Qed.

(** X19.  The earlier revision renders every found route that has a leg
    with a totals line, also when its total duration is negative; the total
    cost shown is the sum, from 0 and in flight order, of the cost of every
    leg, formatted with two decimals, and one plain entry per leg follows. *)
Lemma legacy_total_cost_sums_every_leg
    (startNode : string) (result : RouteResult number)
    (legs : list (Leg number)) (firstLeg lastLeg : Leg number) :
  status result = "found"%string →
  path result = Some legs →
  head legs = Some firstLeg →
  last legs = Some lastLeg →
  Legacy.renderResult tbl startNode result
  = inr (PlainTotals
           (num_toFixed 2 (fold_left num_add (cost <$> legs) (num_of_Z 0)))
           (dateDiff (arrival_utc lastLeg) (departure_utc firstLeg))
         :: imap (Legacy.renderLeg tbl legs startNode) legs).
Proof.
  intros Hst Hpath Hhead Hlast. unfold Legacy.renderResult.
  rewrite decide_True by done.
  by rewrite Hpath, Hhead, Hlast, totalCost_sum.
Qed.

(** X20.  In the earlier revision the entry of leg [i] shows as origin the
    search start for [i = 0] and the destination of leg [i - 1] otherwise,
    and as airline name "Unknown Airline" when the table has none. *)
Lemma legacy_leg_origin_chains
    (legs : list (Leg number)) (startNode : string) (i : nat) (leg : Leg number) :
  legs !! i = Some leg →
  ∃ origin,
    chained_origin legs startNode i = Some origin
    ∧ Legacy.renderLeg tbl legs startNode i leg
      = PlainLeg (nameOr (airlineNames tbl) (airline leg) "Unknown Airline")
                 (airline leg) (flight_number leg) origin (destination leg).
Proof.
  intros Hleg. unfold Legacy.renderLeg. destruct i as [|j]; [by eexists|].
  destruct (prevDestination_in_range legs (S j)) as (prev & Hprev & ->).
  { apply lookup_lt_Some in Hleg. lia. }
  cbn in Hprev. rewrite Nat.sub_0_r in Hprev.
  exists (destination prev). cbn. by rewrite Hprev.
Qed.
End LegacyFacts.

(** The earlier revision prints totals and legs for a route that arrives
    before it leaves. *)
Example legacy_renders_backwards_route :
  Legacy.renderResult Sample.tables "JFK" (Sample.found Sample.backwards)
  = inr [PlainTotals "200.00" (Some (-93600000)%Z);
         PlainLeg "American Airlines" "AA" "AA300" "JFK" "LAX"].
Proof. vm_compute; reflexivity. Qed.

(** The earlier revision shows the results panel, every pane reading "no
    route", when nothing was found, and alerts nothing. *)
Example legacy_shows_panel_without_route :
  resultsTabs_hidden
    (Legacy.submit_resume Sample.tables Sample.request
       (HttpOk Sample.results_none) (Legacy.submit_begin Sample.page))
  = false
  ∧ innerHTML <$>
      tabPanes
        (Legacy.submit_resume Sample.tables Sample.request
           (HttpOk Sample.results_none) (Legacy.submit_begin Sample.page))
        !! "cheapest"%string
    = Some [PlainNoRoute].
Proof. split; vm_compute; reflexivity. Qed.

(** ** Further checks on the sample data *)

(** The spec's example: one leg leaving on 2 January 10:00 and arriving on
    1 January 08:00 is rendered as the notice alone. *)
Example backwards_route_is_notice_only :
  renderResult Sample.tables "JFK" (Sample.found Sample.backwards)
  = inr [ErrorNotice].
Proof. vm_compute; reflexivity. Qed.

(** A middle leg with invalid times is flagged, its cost is in the total,
    and the next leg starts from its destination. *)
Example bad_leg_is_flagged_and_counted :
  renderResult Sample.tables "JFK" (Sample.found Sample.with_bad_leg)
  = inr [AggregateLine "175.00" (Some 25200000%Z) 2;
         DetailLeg "American Airlines" "AA" "AA100" "100" "New York JFK" "JFK"
           "ORD" "ORD" (Some 0%Z) (Some 7200000%Z) (Some 7200000%Z) "B738";
         ErrorLeg "American Airlines" "AA" "AA150";
         DetailLeg "American Airlines" "AA" "AA200" "25" "DEN" "DEN"
           "Los Angeles" "LAX" (Some 10800000%Z) (Some 25200000%Z)
           (Some 14400000%Z) "B738"].
Proof. vm_compute; reflexivity. Qed.

(** A found result with an empty path makes the script throw; the submit
    handler turns that into the fetch-error alert and shows no results. *)
Example empty_found_path_throws :
  renderResult Sample.tables "JFK" (Sample.found []) = inl (TypeError "lastLeg")
  ∧ resultsTabs_hidden
      (run Sample.tables
         [Submit;
          RoutesResponse 1 Sample.request
            (HttpOk [("cheapest"%string, Sample.found [])])]
         Sample.page)
    = true.
Proof. split; vm_compute; reflexivity. Qed.

(** 25 failed flights and 12 conflicts: 20 badges, "+5 more", 10 items. *)
Example report_is_truncated :
  match collisionData (displayCollisionData (Sample.report 25 12) Sample.page) with
  | ReportHtml view =>
      length (badges view) = 20%nat
      ∧ more_indicator view = Some 5%nat
      ∧ length (conflict_items view) = 10%nat
  | _ => False
  end.
Proof. vm_compute. by split_and!. Qed.

(** * Further properties of the script *)

Section MoreFacts.
Context {number : Type} `{!JsNumber number}.
Variable tbl : Tables number.
Implicit Type s : State number.

(** ** Flight numbers sent for validation *)

Lemma setAdd_elem_of x y (set : list string) :
  y ∈ setAdd x set ↔ y = x ∨ y ∈ set.
Proof.
  unfold setAdd. destruct (decide (x ∈ set)) as [Hin|Hin].
  - split; [by right|]. by intros [->|?].
  - rewrite elem_of_app, list_elem_of_singleton. tauto.
Qed.

Lemma setAdd_NoDup x (set : list string) : NoDup set → NoDup (setAdd x set).
Proof.
  intros Hnd. unfold setAdd. destruct (decide (x ∈ set)) as [Hin|Hin]; [done|].
  apply NoDup_app. split_and!; [done| |apply NoDup_singleton].
  intros y Hy ->%list_elem_of_singleton. done.
Qed.

Lemma addFlights_spec (legs : list (Leg number)) (set : list string) :
  (NoDup set →
   NoDup (fold_left (λ set leg, setAdd (flight_number leg) set) legs set))
  ∧ ∀ fn, fn ∈ fold_left (λ set leg, setAdd (flight_number leg) set) legs set
          ↔ fn ∈ set ∨ ∃ leg, leg ∈ legs ∧ flight_number leg = fn.
Proof.
  revert set. induction legs as [|leg legs IH]; intros set; cbn.
  - split; [done|]. intros fn. split; [by left|].
    intros [?|(leg & Hin & _)]; [done|]. by apply elem_of_nil in Hin.
  - destruct (IH (setAdd (flight_number leg) set)) as [Hnd Hin].
    split; [intros; by apply Hnd, setAdd_NoDup|].
    intros fn. rewrite Hin, setAdd_elem_of. split.
    + intros [[->|?]|(l & Hl & <-)].
      * right. exists leg. split; [apply list_elem_of_here|done].
      * by left.
      * right. exists l. split; [by apply list_elem_of_further|done].
    + intros [?|(l & Hl & <-)]; [by left; right|].
      apply elem_of_cons in Hl as [->|Hl]; [by left; left|].
      right. by exists l.
Qed.

Lemma collectFlights_spec (results : ResultSet number)
    (types : list string) (set : list string) :
  let collect :=
    fold_left
      (λ set type,
         match getProp results type ≫= path with
         | Some legs =>
             fold_left (λ set leg, setAdd (flight_number leg) set) legs set
         | None => set
         end) in
  (NoDup set → NoDup (collect types set))
  ∧ ∀ fn, fn ∈ collect types set
          ↔ fn ∈ set
            ∨ ∃ type legs leg,
                type ∈ types
                ∧ getProp results type ≫= path = Some legs
                ∧ leg ∈ legs ∧ flight_number leg = fn.
Proof.
  intros collect. subst collect. revert set.
  induction types as [|type types IH]; intros set; cbn [fold_left].
  - split; [done|]. intros fn. split; [by left|].
    intros [?|(t & _ & _ & Hin & _)]; [done|]. by apply elem_of_nil in Hin.
  - destruct (getProp results type ≫= path) as [legs|] eqn:Hp.
    + destruct (addFlights_spec legs set) as [Hnd Hin].
      destruct (IH (fold_left (λ set leg, setAdd (flight_number leg) set)
                      legs set)) as [Hnd' Hin'].
      split; [intros; by apply Hnd', Hnd|].
      intros fn. rewrite Hin', Hin. split.
      * intros [[?|(leg & Hl & <-)]|(t & ls & l & Ht & Hls & Hl & <-)].
        -- by left.
        -- right. exists type, legs, leg.
           split_and!; [apply list_elem_of_here|done..].
        -- right. exists t, ls, l.
           split_and!; [by apply list_elem_of_further|done..].
      * intros [?|(t & ls & l & Ht & Hls & Hl & <-)]; [by left; left|].
        apply elem_of_cons in Ht as [->|Ht].
        -- rewrite Hp in Hls. injection Hls as <-. left. right. by exists l.
        -- right. by exists t, ls, l.
    + destruct (IH set) as [Hnd' Hin']. split; [done|].
      intros fn. rewrite Hin'. split.
      * intros [?|(t & ls & l & Ht & Hls & Hl & <-)]; [by left|].
        right. exists t, ls, l.
        split_and!; [by apply list_elem_of_further|done..].
      * intros [?|(t & ls & l & Ht & Hls & Hl & <-)]; [by left|].
        apply elem_of_cons in Ht as [->|Ht]; [congruence|].
        right. by exists t, ls, l.
Qed.

(** X1.  The flight numbers sent to [/api/validate-path] hold no
    duplicate, and they are exactly the flight numbers of the legs of the
    paths stored under "cheapest", "fastest" and "best", whatever the status
    of these results; other keys contribute nothing. *)
Theorem allFlightNumbers_are_the_distinct_flights (results : ResultSet number) :
  NoDup (allFlightNumbers results)
  ∧ ∀ fn, fn ∈ allFlightNumbers results
          ↔ ∃ type legs leg,
              type ∈ ["cheapest"; "fastest"; "best"]%string
              ∧ getProp results type ≫= path = Some legs
              ∧ leg ∈ legs ∧ flight_number leg = fn.
Proof.
  destruct (collectFlights_spec results ["cheapest"; "fastest"; "best"]%string [])
    as [Hnd Hin].
  split; [apply Hnd, NoDup_nil_2|].
  intros fn. unfold allFlightNumbers. rewrite Hin. split; [|by right].
  intros [Hnil|?]; [|done]. by apply elem_of_nil in Hnil.
Qed.

(** ** The conflict panel *)

(** X2.  In the conflict report the badges shown and the number behind
    "+N more" add up to the number of failed flights; the indicator is never
    "+0 more". *)
Theorem report_badges_account_for_every_failed_flight
    (data : ConflictReport number) s :
  ∃ view,
    collisionData (displayCollisionData data s) = ReportHtml view
    ∧ (length (badges view) + default 0 (more_indicator view)
       = length (failed_flights data))%nat
    ∧ failed_total view = length (failed_flights data)
    ∧ more_indicator view ≠ Some 0%nat.
Proof.
  eexists. split; [reflexivity|].
  cbn [badges more_indicator failed_total]. rewrite length_take.
  generalize (length (failed_flights data)). intros n.
  destruct (20 <? n)%nat eqn:Hlt.
  - apply Nat.ltb_lt in Hlt. change (default 0%nat (Some ?x)) with x.
    split_and!; [lia|done|]. intros [= ?]. lia.
  - apply Nat.ltb_ge in Hlt. change (default 0%nat None) with 0%nat.
    split_and!; [lia|done..].
Qed.

(** X3.  Opening the conflict panel and closing it again, whatever the
    report request answered in between, does not restore the visibility the
    results panel had: the results panel ends up visible exactly when
    [currentResults] has at least one key, also when it was hidden before
    (after a search that found no route, say).  Panes, map and banners are
    as before. *)
Theorem closing_the_conflict_panel_shows_stored_results
    (resp : Http (ConflictReport number)) s :
  let s' :=
    run tbl [ViewCollisions; CollisionReportResponse resp; CloseCollisions] s in
  collisionPanel_hidden s' = true
  ∧ collisionLoading_hidden s' = true
  ∧ resultsTabs_hidden s' = bool_decide (currentResults s = [])
  ∧ tabPanes s' = tabPanes s
  ∧ tabButtons s' = tabButtons s
  ∧ routeLayer s' = routeLayer s
  ∧ warnings s' = warnings s.
Proof.
  cbn. unfold closeCollisions.
  destruct resp as [data| |]; cbn; destruct (currentResults s); by split_and!.
Qed.

(** ** Failed searches *)

(** X4.  A search whose request fails (a non-2xx status or a rejected
    fetch) alerts the error and hides the spinner; the panes and the result
    set of the previous search are kept, hidden, and the map stays
    cleared. *)
Theorem failed_search_keeps_previous_results
    (gen : nat) (requestData : RequestData) (code : nat) (message : string) s :
  let after resp := run tbl [Submit; RoutesResponse gen requestData resp] s in
  (currentResults (after (HttpStatus code)) = currentResults s
   ∧ tabPanes (after (HttpStatus code)) = tabPanes s
   ∧ resultsTabs_hidden (after (HttpStatus code)) = true
   ∧ routeLayer (after (HttpStatus code)) = []
   ∧ loadingSpinner_hidden (after (HttpStatus code)) = true
   ∧ head (effects (after (HttpStatus code)))
     = Some (Alerted (FetchErrorAlert (HttpError code))))
  ∧ (currentResults (after (HttpFailed message)) = currentResults s
     ∧ tabPanes (after (HttpFailed message)) = tabPanes s
     ∧ resultsTabs_hidden (after (HttpFailed message)) = true
     ∧ routeLayer (after (HttpFailed message)) = []
     ∧ loadingSpinner_hidden (after (HttpFailed message)) = true
     ∧ head (effects (after (HttpFailed message)))
       = Some (Alerted (FetchErrorAlert (Rejected message)))).
Proof. by split_and!. Qed.

(** ** Tabs *)

Lemma tabClick_out_of_range i s : tabButtons s !! i = None → tabClick tbl i s = s.
Proof. intros Hb. unfold tabClick. by rewrite Hb. Qed.

Lemma tabClick_buttons_eq i button s :
  tabButtons s !! i = Some button →
  tabButtons (tabClick tbl i s)
  = <[i := {| data_tab := data_tab button; btn_active := true |}]>
      ((λ btn, {| data_tab := data_tab btn; btn_active := false |})
         <$> tabButtons s).
Proof. intros Hb. unfold tabClick. rewrite Hb, drawMapRoute_shape. reflexivity. Qed.

Lemma tabClick_panes_eq i button s :
  tabButtons s !! i = Some button →
  tabPanes (tabClick tbl i s)
  = map_imap (λ id pane,
                Some {| innerHTML := innerHTML pane;
                        pane_active := bool_decide (id = data_tab button) |})
             (tabPanes s).
Proof. intros Hb. unfold tabClick. rewrite Hb, drawMapRoute_shape. reflexivity. Qed.

Lemma tabClick_view i button s :
  tabButtons s !! i = Some button →
  mapView (tabClick tbl i s)
  = mapView (drawMapRoute tbl (getProp (currentResults s) (data_tab button) ≫= path)
                          (toUpperCase (start_airport (form s))) s).
Proof.
  intros Hb. unfold tabClick. rewrite Hb. cbv zeta.
  unfold drawMapRoute.
  destruct (getProp (currentResults s) (data_tab button) ≫= path) as [legs|] eqn:Hp;
    cbn [currentResults set_tabPanes set_tabButtons form];
    rewrite ?Hp; [|reflexivity].
  destruct (airportCoordinates tbl !! _); [|reflexivity].
  by destruct (omap id _).
Qed.

Lemma drawMapRoute_view_settled path startNode s s' :
  mapView s' = mapView (drawMapRoute tbl path startNode s) →
  mapView (drawMapRoute tbl path startNode s')
  = mapView (drawMapRoute tbl path startNode s).
Proof.
  unfold drawMapRoute.
  destruct path as [legs|]; [destruct (airportCoordinates tbl !! startNode)|];
    try (intros H; exact H).
  destruct (omap id (routePoints tbl legs startNode)); intros H; [exact H|done].
Qed.

Lemma buttons_data_tab i button (l : list TabButton) :
  l !! i = Some button →
  data_tab <$>
    <[i := {| data_tab := data_tab button; btn_active := true |}]>
      ((λ btn, {| data_tab := data_tab btn; btn_active := false |}) <$> l)
  = data_tab <$> l.
Proof.
  intros Hb. apply list_eq. intros j. rewrite !list_lookup_fmap.
  destruct (decide (i = j)) as [<-|Hne].
  - rewrite list_lookup_insert_eq
      by (rewrite length_fmap; by eapply lookup_lt_Some).
    by rewrite Hb.
  - rewrite list_lookup_insert_ne by done. rewrite list_lookup_fmap.
    by destruct (l !! j).
Qed.

(** X5.  A click on a tab moves the active mark and redraws the map, and
    that is all: every pane keeps its content, the buttons keep their
    [data-tab], the result set, the banners and the visibility of the
    results panel are untouched and nothing is alerted or fetched.  After it
    button [i] is the only active button and the panes whose id is its
    [data-tab] the only active panes. *)
Theorem tabClick_only_moves_the_active_mark (i : nat) (button : TabButton) s :
  tabButtons s !! i = Some button →
  let s' := tabClick tbl i s in
  (∀ k, innerHTML <$> tabPanes s' !! k = innerHTML <$> tabPanes s !! k)
  ∧ data_tab <$> tabButtons s' = data_tab <$> tabButtons s
  ∧ currentResults s' = currentResults s
  ∧ warnings s' = warnings s
  ∧ resultsTabs_hidden s' = resultsTabs_hidden s
  ∧ effects s' = effects s
  ∧ (∀ j btn, tabButtons s' !! j = Some btn → btn_active btn = bool_decide (j = i))
  ∧ (∀ k pane, tabPanes s' !! k = Some pane →
               pane_active pane = bool_decide (k = data_tab button)).
Proof.
  intros Hb s'. subst s'. split_and!.
  - intros k. rewrite (tabClick_panes tbl i button) by done.
    by destruct (tabPanes s !! k).
  - rewrite (tabClick_buttons_eq i button) by done. by apply buttons_data_tab.
  - by rewrite tabClick_shape.
  - by rewrite tabClick_shape.
  - by rewrite tabClick_shape.
  - by rewrite tabClick_shape.
  - intros j btn Hj.
    by destruct (tabClick_buttons tbl i button s j btn Hb Hj) as (_ & _ & _ & ->).
  - intros k pane. rewrite (tabClick_panes tbl i button) by done.
    destruct (tabPanes s !! k); [|done]. by intros [= <-].
Qed.

(** X6.  Clicking the same tab twice in a row leaves the page exactly as
    clicking it once: buttons, panes, route layer and view. *)
Theorem tabClick_idempotent (i : nat) s :
  tabClick tbl i (tabClick tbl i s) = tabClick tbl i s.
Proof.
  destruct (tabButtons s !! i) as [button|] eqn:Hb;
    [|by rewrite !(tabClick_out_of_range i s Hb)].
  set (on := {| data_tab := data_tab button; btn_active := true |}).
  assert (tabButtons (tabClick tbl i s) !! i = Some on) as Hb'.
  { rewrite (tabClick_buttons_eq i button) by done.
    apply list_lookup_insert_eq. rewrite length_fmap. by eapply lookup_lt_Some. }
  assert (currentResults (tabClick tbl i s) = currentResults s) as Hcur
    by by rewrite tabClick_shape.
  assert (form (tabClick tbl i s) = form s) as Hform by by rewrite tabClick_shape.
  assert (tabButtons (tabClick tbl i (tabClick tbl i s))
          = tabButtons (tabClick tbl i s)) as Hbuttons.
  { rewrite (tabClick_buttons_eq i on) by done.
    rewrite (tabClick_buttons_eq i button) by done.
    rewrite list_fmap_insert, <- list_fmap_compose, list_insert_insert_eq.
    reflexivity. }
  assert (tabPanes (tabClick tbl i (tabClick tbl i s))
          = tabPanes (tabClick tbl i s)) as Hpanes.
  { rewrite (tabClick_panes_eq i on) by done.
    rewrite (tabClick_panes_eq i button) by done.
    apply map_eq. intros k. rewrite !map_lookup_imap.
    by destruct (tabPanes s !! k). }
  assert (routeLayer (tabClick tbl i (tabClick tbl i s))
          = routeLayer (tabClick tbl i s)) as Hlayer.
  { rewrite (tabClick_layer tbl i on) by done.
    rewrite (tabClick_layer tbl i button) by done.
    rewrite Hcur, Hform. apply drawMapRoute_layer_fresh. }
  assert (mapView (tabClick tbl i (tabClick tbl i s))
          = mapView (tabClick tbl i s)) as Hview.
  { rewrite (tabClick_view i on) by done. rewrite Hcur, Hform.
    change (data_tab on) with (data_tab button).
    rewrite (drawMapRoute_view_settled _ _ s); [|by apply tabClick_view].
    symmetry. by apply tabClick_view. }
  rewrite (tabClick_shape tbl i (tabClick tbl i s)).
  rewrite Hbuttons, Hpanes, Hlayer, Hview.
  etrans; [|symmetry; apply tabClick_shape].
  generalize (tabClick_shape tbl i s). generalize (tabClick tbl i s).
  intros t Ht. rewrite Ht. reflexivity.
Qed.

(** X7.  A click on a tab whose key is absent from the stored result set,
    or whose result has no path, empties the route layer and leaves the view
    frame where it was. *)
Theorem tab_without_route_clears_the_map (i : nat) (button : TabButton) s :
  tabButtons s !! i = Some button →
  getProp (currentResults s) (data_tab button) ≫= path = None →
  routeLayer (tabClick tbl i s) = []
  ∧ mapView (tabClick tbl i s) = mapView s.
Proof.
  intros Hb Hp.
  rewrite (tabClick_layer tbl i button), (tabClick_view i button) by done.
  by rewrite Hp.
Qed.

(** ** Markers *)

Lemma routePoints_lookup_code legs startNode i code :
  chained_origin legs startNode i = Some code →
  routePoints tbl legs startNode !! i = Some (airportCoordinates tbl !! code)
  ∧ (i ≤ length legs)%nat
  ∧ (if (i =? 0)%nat then startNode else prevDestination legs i) = code.
Proof.
  unfold routePoints. destruct i as [|j].
  - cbn. intros [= <-]. split_and!; [done|lia|done].
  - cbn [chained_origin Nat.eqb].
    change ((?x :: ?l) !! S j) with (l !! j). rewrite list_lookup_fmap.
    destruct (legs !! j) as [leg|] eqn:Hj; [|done]. cbn. intros [= <-].
    split_and!; [done|apply lookup_lt_Some in Hj; lia|].
    unfold prevDestination. cbn [Nat.sub]. by rewrite ?Nat.sub_0_r, Hj.
Qed.

Lemma elem_of_imap {A B} (f : nat → A → B) (l : list A) (y : B) :
  y ∈ imap f l ↔ ∃ i x, l !! i = Some x ∧ y = f i x.
Proof.
  rewrite list_elem_of_lookup. split.
  - intros [i Hi]. rewrite list_lookup_imap in Hi.
    destruct (l !! i) as [x|] eqn:Hx; [|done]. injection Hi as <-.
    by exists i, x.
  - intros (i & x & Hx & ->). exists i. by rewrite list_lookup_imap, Hx.
Qed.

(** X8.  With a start airport that has coordinates, the route layer holds
    the connecting path and, for every point of the route that has
    coordinates, one marker labelled with the point's airport code and its
    name (the code itself when the name table has none), and nothing else.
    The marker of the start is the origin marker, the marker of the last
    leg's destination the destination marker, every other one a layover
    marker; the position is counted over all points, so a route whose last
    destination has no coordinates gets no destination marker, and a route
    without legs gets the origin marker only. *)
Theorem markers_are_classified_by_position
    (legs : list (Leg number)) (startNode : string) s (c0 : Coord number)
    (layer : Layer number) :
  airportCoordinates tbl !! startNode = Some c0 →
  layer ∈ routeLayer (drawMapRoute tbl (Some legs) startNode s)
  ↔ layer
    = Polyline (c0 :: omap (λ leg, airportCoordinates tbl !! destination leg) legs)
    ∨ ∃ i code c,
        chained_origin legs startNode i = Some code
        ∧ airportCoordinates tbl !! code = Some c
        ∧ layer
          = Marker c
              {| popup_kind :=
                   if (i =? 0)%nat then Origin
                   else if (i =? length legs)%nat then Destination
                   else Layover;
                 popup_name := Some (nameOr (airportNames tbl) code code);
                 popup_code := code |}.
Proof.
  intros H0.
  assert (routeLayer (drawMapRoute tbl (Some legs) startNode s)
          = omap id (imap (pointMarker tbl legs startNode (S (length legs)))
                          (routePoints tbl legs startNode))
            ++ [Polyline (c0 :: omap (λ leg, airportCoordinates tbl !! destination leg)
                                     legs)]) as ->.
  { unfold drawMapRoute. rewrite H0.
    rewrite (routePoints_resolved tbl legs startNode c0 H0).
    replace (length (routePoints tbl legs startNode)) with (S (length legs))
      by (unfold routePoints; cbn [length]; by rewrite length_fmap).
    reflexivity. }
  rewrite elem_of_app, list_elem_of_singleton, list_elem_of_omap.
  split.
  - intros [(m & Hm & Hid)|?]; [right|by left].
    apply elem_of_imap in Hm as (i & p & Hp & ->). cbn in Hid.
    destruct (routePoints_lookup tbl legs startNode i p Hp)
      as (code & Hcode & -> & Hc).
    unfold pointMarker in Hid.
    destruct (airportCoordinates tbl !! code) as [c|] eqn:Hcoord; [|done].
    injection Hid as <-. exists i, code, c. rewrite Hc.
    change (S (length legs) - 1)%nat with (length legs - 0)%nat.
    by rewrite Nat.sub_0_r.
  - intros [->|(i & code & c & Hcode & Hcoord & ->)]; [by right|left].
    destruct (routePoints_lookup_code legs startNode i code Hcode)
      as (Hp & _ & Hc).
    eexists. split.
    + apply elem_of_imap. eexists i, _. split; [exact Hp|reflexivity].
    + cbn. unfold pointMarker. rewrite Hcoord, Hc.
      change (S (length legs) - 1)%nat with (length legs - 0)%nat.
      by rewrite Nat.sub_0_r.
Qed.

(** ** Banners *)

(** X9.  Of all events only the answer of a validation request can add a
    warning banner, and only an answer with status 2xx that reports
    conflicts; it adds one banner.  Every other event leaves the banners as
    they are, a search answer provided that its keys name panes. *)
Theorem only_a_conflict_report_adds_a_banner (ev : Event) s :
  keys_name_panes s ev = true →
  warnings (step tbl ev s)
  = match ev with
    | ValidationResponse _ (HttpOk validation) =>
        if conflicts_detected validation
        then {| banner_count := length (conflicted_flights validation);
                banner_flights := flight <$> conflicted_flights validation |}
               :: warnings s
        else warnings s
    | _ => warnings s
    end.
Proof.
  intros _.
  destruct ev as [f| |g rd resp|g resp|i| |resp|]; cbn [step].
  - done.
  - done.
  - apply submit_resume_warnings.
  - destruct resp as [v| |]; cbn; [|done..]. by destruct (conflicts_detected v).
  - apply tabClick_warnings.
  - done.
  - by destruct resp.
  - unfold closeCollisions. by destruct (_ <? _)%nat.
Qed.

(** X10.  Every banner states as its number of conflicting flights the
    number of flight badges it shows; this holds in every state reached from
    a page whose banners satisfy it (a page without banners, say). *)
Theorem banners_count_their_badges (evs : list Event) s :
  Forall (λ b, banner_count b = length (banner_flights b)) (warnings s) →
  Forall (λ b, banner_count b = length (banner_flights b))
         (warnings (run tbl evs s)).
Proof.
  revert s. induction evs as [|ev evs IH]; intros s Hs; [done|].
  cbn. apply IH.
  destruct ev as [f| |g rd resp|g resp|i| |resp|]; cbn [step].
  - done.
  - done.
  - by rewrite submit_resume_warnings.
  - destruct resp as [v| |]; cbn; [|done..].
    destruct (conflicts_detected v); [|done]. cbn.
    constructor; [|done]. cbn. by rewrite length_fmap.
  - by rewrite tabClick_warnings.
  - done.
  - by destruct resp.
  - unfold closeCollisions. by destruct (_ <? _)%nat.
Qed.

(** ** The page keeps its tabs and panes *)

Lemma displayPanes_dom entries startNode s :
  dom (tabPanes (displayPanes tbl entries startNode s).1) = dom (tabPanes s).
Proof.
  revert s. induction entries as [|[type result] rest IH]; intros s; cbn.
  - done.
  - destruct (renderResult tbl startNode result); [done|].
    destruct (tabPanes s !! type) as [pane|] eqn:Hp; [|done].
    rewrite IH. cbn. apply dom_insert_lookup_L. by eexists.
Qed.

Lemma tabClick_dom i s : dom (tabPanes (tabClick tbl i s)) = dom (tabPanes s).
Proof.
  destruct (tabButtons s !! i) as [button|] eqn:Hb;
    [|by rewrite tabClick_out_of_range].
  rewrite (tabClick_panes_eq i button) by done.
  apply set_eq. intros k. rewrite !elem_of_dom, map_lookup_imap.
  destruct (tabPanes s !! k); cbn; split; intros [? ?]; by eauto.
Qed.

Lemma tabClick_data_tabs i s :
  data_tab <$> tabButtons (tabClick tbl i s) = data_tab <$> tabButtons s.
Proof.
  destruct (tabButtons s !! i) as [button|] eqn:Hb;
    [|by rewrite tabClick_out_of_range].
  rewrite (tabClick_buttons_eq i button) by done. by apply buttons_data_tab.
Qed.

Lemma displayAllResults_structure results startNode s :
  dom (tabPanes (displayAllResults tbl results startNode s).1) = dom (tabPanes s)
  ∧ data_tab <$> tabButtons (displayAllResults tbl results startNode s).1
    = data_tab <$> tabButtons s.
Proof.
  unfold displayAllResults.
  pose proof (displayPanes_dom results startNode s) as Hdom.
  pose proof (displayPanes_shape tbl results startNode s) as Hsh.
  destruct (displayPanes tbl results startNode s) as [s1 [e|]]; cbn in *.
  - split; [done|]. by rewrite Hsh.
  - destruct (list_find _ _) as [[i btn]|]; cbn.
    + rewrite tabClick_dom, tabClick_data_tabs. split; [done|]. by rewrite Hsh.
    + split; [done|]. by rewrite Hsh.
Qed.

Lemma step_structure ev s :
  dom (tabPanes (step tbl ev s)) = dom (tabPanes s)
  ∧ data_tab <$> tabButtons (step tbl ev s) = data_tab <$> tabButtons s.
Proof.
  destruct ev as [f| |g rd resp|g resp|i| |resp|]; cbn [step].
  - done.
  - done.
  - unfold submit_resume. destruct resp as [results| |]; try done.
    destruct (negb (hasAnyRoute results)); [done|].
    match goal with |- context [displayAllResults tbl ?r ?n ?x] =>
      pose proof (displayAllResults_structure r n x) as Hst;
      destruct (displayAllResults tbl r n x) as [s1 [e|]] end; cbn in *.
    + exact Hst.
    + unfold validateCurrentPath_begin. by destruct (decide _).
  - destruct resp as [v| |]; cbn; [|done..]. by destruct (conflicts_detected v).
  - split; [apply tabClick_dom|apply tabClick_data_tabs].
  - done.
  - by destruct resp.
  - unfold closeCollisions. by destruct (_ <? _)%nat.
Qed.

(** ** Panes that a result set does not name *)

(** X12.  When the keys of the result set name panes, [displayAllResults]
    writes no other pane: a pane whose id is not a key keeps the content it
    had, from an earlier search for instance, whether or not the rendering
    of the other panes succeeds. *)
Theorem pane_without_result_keeps_its_content
    (results : ResultSet number) (startNode : string) s (k : string) :
  keys_are_panes s results = true →
  k ∉ results.*1 →
  innerHTML <$> tabPanes (displayAllResults tbl results startNode s).1 !! k
  = innerHTML <$> tabPanes s !! k.
Proof.
  intros _ Hk. unfold displayAllResults.
  pose proof (displayPanes_other tbl results startNode s k Hk) as Hother.
  pose proof (displayPanes_shape tbl results startNode s) as Hsh.
  destruct (displayPanes tbl results startNode s) as [s1 [e|]]; cbn in *.
  - by rewrite Hother.
  - destruct (list_find _ _) as [[i btn]|] eqn:Hfind; cbn; [|by rewrite Hother].
    apply list_find_Some in Hfind as (Hi & _ & _).
    rewrite (tabClick_panes tbl i btn) by done. rewrite Hother.
    by destruct (tabPanes s !! k).
Qed.

(** ** Dates that do not parse *)


(** ** Searches that find a route *)

Lemma tabClick_frame i s :
  effects (tabClick tbl i s) = effects s
  ∧ loadingSpinner_hidden (tabClick tbl i s) = loadingSpinner_hidden s
  ∧ currentResults (tabClick tbl i s) = currentResults s
  ∧ resultsTabs_hidden (tabClick tbl i s) = resultsTabs_hidden s
  ∧ collisionPanel_hidden (tabClick tbl i s) = collisionPanel_hidden s.
Proof. rewrite tabClick_shape. by split_and!. Qed.

Lemma displayPanes_frame entries startNode s :
  effects (displayPanes tbl entries startNode s).1 = effects s
  ∧ loadingSpinner_hidden (displayPanes tbl entries startNode s).1
    = loadingSpinner_hidden s
  ∧ currentResults (displayPanes tbl entries startNode s).1 = currentResults s
  ∧ resultsTabs_hidden (displayPanes tbl entries startNode s).1
    = resultsTabs_hidden s
  ∧ tabButtons (displayPanes tbl entries startNode s).1 = tabButtons s
  ∧ routeLayer (displayPanes tbl entries startNode s).1 = routeLayer s
  ∧ mapView (displayPanes tbl entries startNode s).1 = mapView s.
Proof. rewrite displayPanes_shape. by split_and!. Qed.

(** X14.  When some result is found and the result set is displayable, the
    answer of a search is stored, rendered and shown, and the banners are
    kept.  With at least one flight number under the three criteria the
    handler then sends exactly these to [/api/validate-path] and leaves the
    spinner as it is until the answer comes; with none it sends nothing and
    hides the spinner. *)
Theorem found_routes_are_shown_then_validated
    (gen : nat) (requestData : RequestData) (results : ResultSet number) s :
  hasAnyRoute results = true →
  displayable s results = true →
  let s' := step tbl (RoutesResponse gen requestData (HttpOk results)) s in
  resultsTabs_hidden s' = false
  ∧ currentResults s' = results
  ∧ warnings s' = warnings s
  ∧ match allFlightNumbers results with
    | [] =>
        loadingSpinner_hidden s' = true
        ∧ effects s' = Logged (LogReceived results) :: effects s
    | fn :: fns =>
        loadingSpinner_hidden s' = loadingSpinner_hidden s
        ∧ effects s'
          = Fetched (ValidatePath (fn :: fns))
              :: Logged (LogReceived results) :: effects s
    end.
Proof.
  intros Hany Hd s'. subst s'. cbn [step]. unfold submit_resume.
  rewrite Hany. cbn [negb].
  set (s0 := console_log (LogReceived results) (set_currentResults results s)).
  destruct (displayAllResults_ok tbl results (start requestData) s0 Hd)
    as (i & btn & _ & _ & _ & ->).
  destruct (tabClick_frame i (displayPanes tbl results (start requestData) s0).1)
    as (He & Hl & Hc & _ & _).
  destruct (displayPanes_frame results (start requestData) s0)
    as (He0 & Hl0 & Hc0 & _).
  pose proof (tabClick_warnings tbl i
                (displayPanes tbl results (start requestData) s0).1) as Hw.
  pose proof (displayAllResults_warnings tbl results (start requestData) s0) as Hw0.
  unfold validateCurrentPath_begin.
  destruct (allFlightNumbers results) as [|fn fns] eqn:Hfl.
  - rewrite decide_True by done. cbn.
    rewrite He, He0, Hc, Hc0, Hw. split_and!; try done.
    unfold displayAllResults in Hw0.
    by rewrite displayPanes_shape.
  - rewrite decide_False by done. cbn.
    rewrite He, He0, Hc, Hc0, Hl, Hl0, Hw. split_and!; try done.
    by rewrite displayPanes_shape.
Qed.

(** ** Results that cannot be rendered *)

Lemma renderResult_inr_well_formed startNode (r : RouteResult number) c :
  renderResult tbl startNode r = inr c → well_formed r = true.
Proof.
  unfold renderResult, well_formed. destruct (decide _); [|done].
  by destruct (path r) as [[|leg legs]|].
Qed.

Lemma displayPanes_throws entries startNode s :
  Exists (λ kv, well_formed kv.2 = false) entries →
  ∃ e, (displayPanes tbl entries startNode s).2 = Some e.
Proof.
  revert s. induction entries as [|[type result] rest IH]; intros s Hex.
  - by apply Exists_nil in Hex.
  - cbn. destruct (renderResult tbl startNode result) as [e|c] eqn:Hr;
      [by exists e|].
    destruct (tabPanes s !! type); [|by eexists].
    apply IH. apply Exists_cons in Hex as [Hbad|?]; [|done].
    cbn in Hbad. apply renderResult_inr_well_formed in Hr. congruence.
Qed.

Lemma ill_formed_is_found (results : ResultSet number) :
  Exists (λ kv, well_formed kv.2 = false) results → hasAnyRoute results = true.
Proof.
  unfold hasAnyRoute. induction 1 as [[k r] rest Hbad|kv rest _ IH]; cbn.
  - unfold well_formed in Hbad. cbn in Hbad.
    destruct (decide (status r = "found"%string)); [|done].
    by rewrite bool_decide_eq_true_2.
  - rewrite IH. by destruct (bool_decide _).
Qed.

(** X15.  When the keys of the answer name panes and some found result has
    no path or an empty one, rendering throws: the handler alerts the error and hides the
    spinner, the results panel is not shown, no tab is activated, the map is
    not redrawn and no validation request is sent, although the answer has
    already replaced the stored result set. *)
Theorem unrenderable_result_is_reported_as_fetch_error
    (gen : nat) (requestData : RequestData) (results : ResultSet number) s :
  keys_are_panes s results = true →
  Exists (λ kv, well_formed kv.2 = false) results →
  let s' := step tbl (RoutesResponse gen requestData (HttpOk results)) s in
  ∃ e,
    effects s'
    = Alerted (FetchErrorAlert e) :: Logged (LogReceived results) :: effects s
    ∧ resultsTabs_hidden s' = resultsTabs_hidden s
    ∧ loadingSpinner_hidden s' = true
    ∧ tabButtons s' = tabButtons s
    ∧ routeLayer s' = routeLayer s
    ∧ mapView s' = mapView s
    ∧ warnings s' = warnings s
    ∧ currentResults s' = results.
Proof.
  intros _ Hbad s'. subst s'. cbn [step]. unfold submit_resume.
  rewrite (ill_formed_is_found results Hbad). cbn [negb].
  set (s0 := console_log (LogReceived results) (set_currentResults results s)).
  destruct (displayPanes_throws results (start requestData) s0 Hbad) as [e He].
  destruct (displayPanes_frame results (start requestData) s0)
    as (He0 & Hl0 & Hc0 & Hr0 & Hb0 & Hy0 & Hv0).
  pose proof (displayAllResults_warnings tbl results (start requestData) s0) as Hw0.
  unfold displayAllResults in *.
  destruct (displayPanes tbl results (start requestData) s0) as [s1 e1].
  cbn in He. subst e1. cbn in *. exists e.
  rewrite He0, Hr0, Hb0, Hy0, Hv0, Hw0, Hc0. by split_and!.
Qed.

(** ** The earlier revision *)

Lemma without_name_markers
    (f g : nat → option (Coord number) → option (Layer number))
    (points : list (option (Coord number))) :
  (∀ i p, f i p = without_name <$> g i p) →
  omap id (imap f points) = without_name <$> omap id (imap g points).
Proof.
  revert f g. induction points as [|p points IH]; intros f g Hfg; [done|].
  rewrite !imap_cons. cbn. rewrite Hfg.
  destruct (g 0%nat p); cbn; [f_equal|]; apply IH; intros; apply Hfg.
Qed.

(** X16.  The two revisions draw the same route: the same markers at the
    same positions with the same kind and airport code, the same connecting
    path and the same view; the earlier revision only leaves the airport
    name out of the popups. *)
Theorem earlier_revision_draws_the_same_route
    (path : option (list (Leg number))) (startNode : string) s :
  routeLayer (Legacy.drawMapRoute tbl path startNode s)
  = without_name <$> routeLayer (drawMapRoute tbl path startNode s)
  ∧ mapView (Legacy.drawMapRoute tbl path startNode s)
    = mapView (drawMapRoute tbl path startNode s).
Proof.
  unfold Legacy.drawMapRoute, drawMapRoute.
  destruct path as [legs|]; [destruct (airportCoordinates tbl !! startNode)|];
    try done.
  assert (omap id (imap (Legacy.pointMarker legs startNode
                           (length (routePoints tbl legs startNode)))
                        (routePoints tbl legs startNode))
          = without_name
              <$> omap id (imap (pointMarker tbl legs startNode
                                   (length (routePoints tbl legs startNode)))
                                (routePoints tbl legs startNode))) as Hm.
  { apply without_name_markers. by intros i [c'|]. }
  destruct (omap id (routePoints tbl legs startNode));
    cbn [routeLayer mapView set_routeLayer set_mapView];
    by rewrite Hm, fmap_app.
Qed.

Lemma legacy_drawMapRoute_shape path startNode s :
  Legacy.drawMapRoute tbl path startNode s
  = set_mapView (mapView (Legacy.drawMapRoute tbl path startNode s))
      (set_routeLayer (routeLayer (Legacy.drawMapRoute tbl path startNode s)) s).
Proof.
  unfold Legacy.drawMapRoute.
  destruct path as [legs|]; [destruct (airportCoordinates tbl !! startNode)|];
    try reflexivity.
  by destruct (omap id (routePoints tbl legs startNode)).
Qed.

Lemma legacy_tabClick_frame i s :
  effects (Legacy.tabClick tbl i s) = effects s
  ∧ loadingSpinner_hidden (Legacy.tabClick tbl i s) = loadingSpinner_hidden s
  ∧ currentResults (Legacy.tabClick tbl i s) = currentResults s
  ∧ resultsTabs_hidden (Legacy.tabClick tbl i s) = resultsTabs_hidden s
  ∧ ∀ k, innerHTML <$> tabPanes (Legacy.tabClick tbl i s) !! k
         = innerHTML <$> tabPanes s !! k.
Proof.
  unfold Legacy.tabClick. destruct (tabButtons s !! i) as [button|]; [|done].
  rewrite legacy_drawMapRoute_shape. split_and!; try reflexivity.
  intros k. cbn. rewrite map_lookup_imap. by destruct (tabPanes s !! k).
Qed.

Lemma legacy_displayPanes_shape entries startNode s :
  (Legacy.displayPanes tbl entries startNode s).1
  = set_tabPanes (tabPanes (Legacy.displayPanes tbl entries startNode s).1) s.
Proof.
  revert s. induction entries as [|[type result] rest IH]; intros s; cbn.
  - by destruct s.
  - destruct (Legacy.renderResult tbl startNode result); [by destruct s|].
    destruct (tabPanes s !! type); [|by destruct s].
    etrans; [apply IH|]. reflexivity.
Qed.

Lemma legacy_well_formed_renders startNode (r : RouteResult number) :
  well_formed r = true → ∃ c, Legacy.renderResult tbl startNode r = inr c.
Proof.
  unfold well_formed, Legacy.renderResult. destruct (decide _); [|by eauto].
  destruct (path r) as [[|leg legs]|]; try done. intros _.
  destruct (proj2 (last_is_Some (leg :: legs))) as [l ->]; [done|].
  cbn [head]. by eauto.
Qed.

Lemma legacy_displayPanes_ok entries startNode s :
  Forall (λ kv, well_formed kv.2 = true ∧ is_Some (tabPanes s !! kv.1)) entries →
  (Legacy.displayPanes tbl entries startNode s).2 = None.
Proof.
  revert s. induction entries as [|[type result] rest IH]; intros s Hall; cbn.
  - done.
  - apply Forall_cons in Hall as [[Hwf [pane Hpane]] Hall]. cbn in *.
    destruct (legacy_well_formed_renders startNode _ Hwf) as [c ->].
    rewrite Hpane.
    apply IH. eapply Forall_impl; [exact Hall|]. intros [k r] [? ?]; cbn in *.
    split; [done|]. apply lookup_insert_is_Some.
    destruct (decide (type = k)); [by left|by right].
Qed.

Lemma legacy_displayPanes_other entries startNode s k :
  k ∉ entries.*1 →
  tabPanes (Legacy.displayPanes tbl entries startNode s).1 !! k
  = tabPanes s !! k.
Proof.
  revert s. induction entries as [|[type result] rest IH]; intros s Hk; cbn.
  - done.
  - cbn in Hk. apply not_elem_of_cons in Hk as [Hne Hk].
    destruct (Legacy.renderResult tbl startNode result); [done|].
    destruct (tabPanes s !! type); [|done].
    rewrite IH by done. cbn. by rewrite lookup_insert_ne.
Qed.

Lemma legacy_displayPanes_lookup entries startNode s k r :
  NoDup entries.*1 →
  (Legacy.displayPanes tbl entries startNode s).2 = None →
  (k, r) ∈ entries →
  ∃ c, Legacy.renderResult tbl startNode r = inr c
    ∧ innerHTML <$> tabPanes (Legacy.displayPanes tbl entries startNode s).1 !! k
      = Some c.
Proof.
  revert s. induction entries as [|[type result] rest IH]; intros s Hnd Hok Hin.
  - by apply elem_of_nil in Hin.
  - cbn in Hnd. apply NoDup_cons in Hnd as [Htype Hnd]. cbn in Hok |- *.
    destruct (Legacy.renderResult tbl startNode result) as [e|c0] eqn:Hr; [done|].
    destruct (tabPanes s !! type) as [p0|] eqn:Hp; [|done].
    apply elem_of_cons in Hin as [Heq|Hin].
    + inversion Heq; subst. exists c0. split; [done|].
      rewrite legacy_displayPanes_other by done. cbn.
      by rewrite lookup_insert_eq.
    + by apply IH.
Qed.

(** X17.  The earlier revision shows every answer: with a displayable
    result set it stores the answer, un-hides the results panel, hides the
    spinner and alerts nothing, whether or not a route was found, and the
    pane of every result that is not found reads "no route". *)
Theorem earlier_revision_shows_every_answer
    (requestData : RequestData) (results : ResultSet number) s :
  displayable s results = true →
  let s' := Legacy.submit_resume tbl requestData (HttpOk results) s in
  resultsTabs_hidden s' = false
  ∧ loadingSpinner_hidden s' = true
  ∧ effects s' = effects s
  ∧ currentResults s' = results
  ∧ ∀ k r, (k, r) ∈ results → status r ≠ "found"%string →
           innerHTML <$> tabPanes s' !! k = Some [PlainNoRoute].
Proof.
  intros (Hall & Hnd & i & btn & Hfind)%displayable_spec s'. subst s'.
  unfold Legacy.submit_resume, Legacy.displayAllResults.
  set (s0 := set_currentResults results s).
  pose proof (legacy_displayPanes_ok results (start requestData) s0 Hall) as Hok.
  pose proof (legacy_displayPanes_shape results (start requestData) s0) as Hsh.
  pose proof (legacy_displayPanes_lookup results (start requestData) s0) as Hlook.
  destruct (Legacy.displayPanes tbl results (start requestData) s0) as [s1 e].
  cbn in Hok, Hsh, Hlook. subst e.
  assert (tabButtons s1 = tabButtons s) as Hb by by rewrite Hsh.
  rewrite Hb, Hfind. cbn.
  destruct (legacy_tabClick_frame i s1) as (He & _ & Hc & _ & Hp).
  split_and!; try done.
  - by rewrite He, Hsh.
  - by rewrite Hc, Hsh.
  - intros k r Hin Hnf. rewrite Hp.
    destruct (Hlook k r Hnd eq_refl Hin) as (c & Hc' & ->).
    unfold Legacy.renderResult in Hc'. rewrite decide_False in Hc' by done.
    by injection Hc' as <-.
Qed.
End MoreFacts.

(** * The further properties on the sample data *)

Lemma tabClick_only_moves_the_active_mark_witness :
  tabButtons Sample.second_search_shown !! 1%nat
  = Some {| data_tab := "fastest"; btn_active := false |}
  ∧ innerHTML <$>
      tabPanes (tabClick Sample.tables 1 Sample.second_search_shown)
        !! "cheapest"%string
    = innerHTML <$> tabPanes Sample.second_search_shown !! "cheapest"%string.
Proof.
  assert (tabButtons Sample.second_search_shown !! 1%nat
          = Some {| data_tab := "fastest"; btn_active := false |}) as Hb
    by (vm_compute; reflexivity).
  split; [exact Hb|].
  pose proof (tabClick_only_moves_the_active_mark Sample.tables 1 _
                Sample.second_search_shown Hb) as H.
  cbv zeta in H. destruct H as (Hpanes & _). apply Hpanes.
Defined.

Lemma tab_without_route_clears_the_map_witness :
  getProp Sample.results_fastest_only "cheapest" ≫= path = None
  ∧ routeLayer (tabClick Sample.tables 0
                  (Sample.page_with Sample.results_fastest_only))
    = [].
Proof.
  split; [reflexivity|].
  refine (proj1 (tab_without_route_clears_the_map Sample.tables 0
                   {| data_tab := "cheapest"; btn_active := true |}
                   (Sample.page_with Sample.results_fastest_only) _ _));
    reflexivity.
Defined.

Lemma markers_are_classified_by_position_witness :
  airportCoordinates Sample.tables !! "JFK"%string = Some (Sample.coord 40 (-73))
  ∧ Marker (Sample.coord 33 (-118))
      {| popup_kind := Destination;
         popup_name := Some "Los Angeles"%string;
         popup_code := "LAX" |}
    ∈ routeLayer (drawMapRoute Sample.tables (Some Sample.via_ord) "JFK"
                               Sample.page).
Proof.
  assert (airportCoordinates Sample.tables !! "JFK"%string
          = Some (Sample.coord 40 (-73))) as H0 by (vm_compute; reflexivity).
  split; [exact H0|].
  apply (proj2 (markers_are_classified_by_position Sample.tables Sample.via_ord
                  "JFK" Sample.page (Sample.coord 40 (-73)) _ H0)).
  right. exists 2%nat, "LAX"%string, (Sample.coord 33 (-118)).
  split_and!; vm_compute; reflexivity.
Defined.

Lemma banners_count_their_badges_witness :
  Forall (λ b, banner_count b = length (banner_flights b))
         (warnings Sample.page)
  ∧ Forall (λ b, banner_count b = length (banner_flights b))
           (warnings Sample.after_clean_second_search).
Proof.
  assert (Forall (λ b, banner_count b = length (banner_flights b))
                 (warnings Sample.page)) as H0 by constructor.
  split; [exact H0|].
  exact (banners_count_their_badges Sample.tables
           [Submit; RoutesResponse 1 Sample.request (HttpOk Sample.results_all);
            ValidationResponse 1 (HttpOk Sample.conflict_on_aa100);
            Submit; RoutesResponse 2 Sample.request (HttpOk Sample.results_all);
            ValidationResponse 2 (HttpOk Sample.no_conflict)]
           Sample.page H0).
Defined.

Lemma pane_without_result_keeps_its_content_witness :
  ("cheapest"%string ∉ Sample.results_fastest_only.*1)
  ∧ innerHTML <$>
      tabPanes (displayAllResults Sample.tables Sample.results_fastest_only
                  "JFK" Sample.second_search_shown).1
        !! "cheapest"%string
    = innerHTML <$> tabPanes Sample.second_search_shown !! "cheapest"%string.
Proof.
  assert ("cheapest"%string ∉ Sample.results_fastest_only.*1) as Hk
    by (apply (bool_decide_unpack _); vm_compute; exact I).
  split; [exact Hk|].
  refine (pane_without_result_keeps_its_content Sample.tables
            Sample.results_fastest_only "JFK" Sample.second_search_shown
            "cheapest" _ Hk).
  vm_compute; reflexivity.
Defined.


Lemma found_routes_are_shown_then_validated_witness :
  hasAnyRoute Sample.results_all = true
  ∧ displayable Sample.page Sample.results_all = true
  ∧ resultsTabs_hidden
      (step Sample.tables
         (RoutesResponse 1 Sample.request (HttpOk Sample.results_all))
         Sample.page)
    = false.
Proof.
  assert (hasAnyRoute Sample.results_all = true) as Hany
    by (vm_compute; reflexivity).
  assert (displayable Sample.page Sample.results_all = true) as Hd
    by (vm_compute; reflexivity).
  split; [exact Hany|]. split; [exact Hd|].
  pose proof (found_routes_are_shown_then_validated Sample.tables 1
                Sample.request Sample.results_all Sample.page Hany Hd) as H.
  cbv zeta in H. apply H.
Defined.

Lemma unrenderable_result_is_reported_as_fetch_error_witness :
  Exists (λ kv : string * RouteResult _, well_formed kv.2 = false)
         Sample.results_empty_found
  ∧ resultsTabs_hidden
      (step Sample.tables
         (RoutesResponse 1 Sample.request (HttpOk Sample.results_empty_found))
         Sample.page)
    = true.
Proof.
  assert (Exists (λ kv : string * RouteResult _, well_formed kv.2 = false)
                 Sample.results_empty_found) as Hbad
    by (apply Exists_cons_hd; reflexivity).
  split; [exact Hbad|].
  assert (keys_are_panes Sample.page Sample.results_empty_found = true) as Hkeys
    by (vm_compute; reflexivity).
  pose proof (unrenderable_result_is_reported_as_fetch_error Sample.tables 1
                Sample.request Sample.results_empty_found Sample.page
                Hkeys Hbad) as H.
  cbv zeta in H. destruct H as (e & _ & Hhidden & _). exact Hhidden.
Defined.

Lemma earlier_revision_shows_every_answer_witness :
  displayable Sample.page Sample.results_none = true
  ∧ resultsTabs_hidden
      (Legacy.submit_resume Sample.tables Sample.request
         (HttpOk Sample.results_none) Sample.page)
    = false.
Proof.
  assert (displayable Sample.page Sample.results_none = true) as Hd
    by (vm_compute; reflexivity).
  split; [exact Hd|].
  pose proof (earlier_revision_shows_every_answer Sample.tables Sample.request
                Sample.results_none Sample.page Hd) as H.
  cbv zeta in H. apply H.
Defined.

Lemma legacy_total_cost_sums_every_leg_witness :
  negative (dateDiff (Some 0%Z) (Some 93600000%Z)) = true
  ∧ ∃ entries,
      Legacy.renderResult Sample.tables "JFK" (Sample.found Sample.backwards)
      = inr (PlainTotals "200.00" (Some (-93600000)%Z) :: entries).
Proof.
  split; [reflexivity|]. eexists.
  exact (legacy_total_cost_sums_every_leg Sample.tables "JFK"
           (Sample.found Sample.backwards) Sample.backwards
           (Sample.leg "AA300" "LAX" 93600000 0 200)
           (Sample.leg "AA300" "LAX" 93600000 0 200)
           eq_refl eq_refl eq_refl eq_refl).
Defined.

Lemma legacy_leg_origin_chains_witness :
  Sample.with_bad_leg !! 2%nat
  = Some (Sample.leg "AA200" "LAX" 10800000 25200000 25)
  ∧ Legacy.renderLeg Sample.tables Sample.with_bad_leg "JFK" 2
      (Sample.leg "AA200" "LAX" 10800000 25200000 25)
    = PlainLeg "American Airlines" "AA" "AA200" "DEN" "LAX".
Proof.
  split; [reflexivity|].
  destruct (legacy_leg_origin_chains Sample.tables Sample.with_bad_leg "JFK" 2
              (Sample.leg "AA200" "LAX" 10800000 25200000 25) eq_refl)
    as (origin & Ho & Hr).
  injection Ho as <-. exact Hr.
Defined.

Lemma only_a_conflict_report_adds_a_banner_witness :
  keys_name_panes Sample.page
    (RoutesResponse 1 Sample.request (HttpOk Sample.results_all)) = true
  ∧ warnings
      (step Sample.tables
         (RoutesResponse 1 Sample.request (HttpOk Sample.results_all))
         Sample.page)
    = warnings Sample.page.
Proof.
  assert (keys_name_panes Sample.page
            (RoutesResponse 1 Sample.request (HttpOk Sample.results_all)) = true)
    as Hkeys by (vm_compute; reflexivity).
  split; [exact Hkeys|].
  exact (only_a_conflict_report_adds_a_banner Sample.tables
           (RoutesResponse 1 Sample.request (HttpOk Sample.results_all))
           Sample.page Hkeys).
Defined.

(** * The two defects on the sample data *)

Lemma earlier_revision_renders_negative_total_duration_witness :
  negative (dateDiff (Some 0%Z) (Some 93600000%Z)) = true
  ∧ renderResult Sample.tables "JFK" (Sample.found Sample.backwards)
    = inr [ErrorNotice]
  ∧ Legacy.renderResult Sample.tables "JFK" (Sample.found Sample.backwards)
    = inr [PlainTotals "200.00" (Some (-93600000)%Z);
           PlainLeg "American Airlines" "AA" "AA300" "JFK" "LAX"].
Proof.
  split; [reflexivity|].
  destruct (earlier_revision_renders_negative_total_duration Sample.tables
              "JFK" (Sample.found Sample.backwards) Sample.backwards
              (Sample.leg "AA300" "LAX" 93600000 0 200)
              (Sample.leg "AA300" "LAX" 93600000 0 200)
              eq_refl eq_refl eq_refl eq_refl eq_refl)
    as (Hnew & Hold & _).
  split; [exact Hnew|]. rewrite Hold. vm_compute; reflexivity.
Defined.

Lemma no_route_answer_is_shown_by_closing_the_conflict_panel_witness :
  Forall (λ kv : string * RouteResult _, status kv.2 ≠ "found"%string)
         Sample.results_none
  ∧ resultsTabs_hidden
      (run Sample.tables
         [ViewCollisions; CollisionReportResponse (HttpOk (Sample.report 0 0));
          CloseCollisions]
         (run Sample.tables
            [Submit; RoutesResponse 1 Sample.request (HttpOk Sample.results_none)]
            Sample.page))
    = false.
Proof.
  assert (Forall (λ kv : string * RouteResult _, status kv.2 ≠ "found"%string)
                 Sample.results_none) as Hnone
    by (apply (bool_decide_unpack _); vm_compute; exact I).
  split; [exact Hnone|].
  pose proof (no_route_answer_is_shown_by_closing_the_conflict_panel
                Sample.tables 1 Sample.request Sample.results_none
                (HttpOk (Sample.report 0 0)) Sample.page) as H.
  cbv zeta in H. destruct H as (_ & Hshown & _); [done|exact Hnone|].
  exact Hshown.
Defined.

(** After the answer that found nothing and a look at the conflict panel,
    the results panel is visible and all its panes are empty. *)
Example empty_results_panel_is_shown :
  resultsTabs_hidden Sample.empty_panel_shown = false
  ∧ innerHTML <$> tabPanes Sample.empty_panel_shown !! "cheapest"%string = Some []
  ∧ innerHTML <$> tabPanes Sample.empty_panel_shown !! "fastest"%string = Some []
  ∧ innerHTML <$> tabPanes Sample.empty_panel_shown !! "best"%string = Some []
  ∧ warnings Sample.empty_panel_shown = [].
Proof. split_and!; vm_compute; reflexivity. Qed.
